(** * stylepropre: the defensive normalisation layer of the styleguide viewer

    A shallow embedding of
      - [StyleguideDisplay] (theme resolution, component style derivation,
        developer export block),
      - [ProjectBlueprint] (top-level section defaulting),
      - [App.handleGenerate] and [generateProjectManifest] (request flow),
    over a small model of JavaScript values. *)

From Stdlib Require Import PrimFloat Ascii String.
From stdpp Require Import gmap strings pretty list sorting.

Set Warnings "-register-all".
#[local] Open Scope string_scope.

(** ** JavaScript values

    The documents the components receive come out of [JSON.parse], so a value
    is a JSON value or [undefined].  Numbers are IEEE doubles; objects are
    finite maps from property names to values. *)

Inductive value : Type :=
| JUndefined
| JNull
| JBool (b : bool)
| JNum (n : float)
| JStr (s : string)
| JArr (xs : list value)
| JObj (props : gmap string value).

(** What a [throw] carries. *)
Inductive exn : Type :=
| TypeError
| SyntaxError
| Error (msg : string).

(** The outcome of evaluating an expression that may throw. *)
Inductive res (A : Type) : Type :=
| Ok (a : A)
| Throw (e : exn).
Arguments Ok {A} a.
Arguments Throw {A} e.

#[export] Instance res_ret : MRet res := @Ok.
#[export] Instance res_bind : MBind res := λ A B f m,
  match m with
  | Ok a => f a
  | Throw e => Throw e
  end.

Definition is_ok {A} (r : res A) : bool :=
  match r with Ok _ => true | Throw _ => false end.

(** An object literal [{ k1: v1, ..., kn: vn }]. *)
Definition obj (kvs : list (string * value)) : value :=
  JObj (list_to_map kvs).

(** [ToBoolean]: [undefined], [null], [false], [+0], [-0], [NaN] and the empty
    string are falsy, everything else (every object, every array) is truthy. *)
Definition num_truthy (n : float) : bool :=
  negb (PrimFloat.eqb n 0%float) && PrimFloat.eqb n n.

Definition truthy (v : value) : bool :=
  match v with
  | JUndefined | JNull => false
  | JBool b => b
  | JNum n => num_truthy n
  | JStr s => negb (String.eqb s "")
  | JArr _ | JObj _ => true
  end.

Definition nullish (v : value) : bool :=
  match v with
  | JUndefined | JNull => true
  | _ => false
  end.

(** The characters of a string, one string per character. *)
Fixpoint chars (s : string) : list value :=
  match s with
  | EmptyString => []
  | String c s' => JStr (String c EmptyString) :: chars s'
  end.

Definition indexed (xs : list value) : gmap string value :=
  list_to_map (imap (λ i v, (pretty i, v)) xs).

(** The own enumerable properties of a value: the properties of an object, the
    indices of an array or of a string, nothing for the other primitives. *)
Definition ownProps (v : value) : gmap string value :=
  match v with
  | JObj m => m
  | JArr xs => indexed xs
  | JStr s => indexed (chars s)
  | _ => ∅
  end.

(** [v.k] on a value that is neither [undefined] nor [null].  Inherited
    members ([length], [toString], ...) are left out: no property name the
    components read is one of them. *)
Definition prop (v : value) (k : string) : value :=
  default JUndefined (ownProps v !! k).

(** [v.k] and [v[k]]: a [TypeError] on [undefined] and [null]. *)
Definition getProp (v : value) (k : string) : res value :=
  if nullish v then Throw TypeError else Ok (prop v k).

(** [v?.k]: [undefined] on [undefined] and [null]. *)
Definition optProp (v : value) (k : string) : value :=
  if nullish v then JUndefined else prop v k.

(** [a || b] on values. *)
Definition or_else (a : value) (b : value) : value :=
  if truthy a then a else b.

(** [a || b] on expressions that may throw: [a] is evaluated first, and [b]
    only when [a] came out falsy. *)
Definition or_else_m (a b : res value) : res value :=
  x ← a; if truthy x then Ok x else b.

(** [{ ...a, ...b }]: the properties of [b] laid over those of [a]. *)
Definition spread (a b : value) : gmap string value :=
  ownProps b ∪ ownProps a.

Notation "a ?. k" := (optProp a k) (at level 1, left associativity, format "a ?. k").
Notation "a ||| b" := (or_else a b) (at level 50, left associativity).
Notation "a ||? b" := (or_else_m a b) (at level 50, left associativity).

(** ** StyleguideDisplay: resolving the theme *)

Inductive Mode : Type := light | dark.

Definition mode_key (m : Mode) : string :=
  match m with light => "light" | dark => "dark" end.

Definition defaultTypographyScale : value :=
  obj [("h1", JStr "2.5rem"); ("h2", JStr "2rem"); ("h3", JStr "1.75rem");
       ("body", JStr "1rem"); ("caption", JStr "0.875rem")].
Definition defaultSpacingScale : value :=
  obj [("xs", JStr "4px"); ("sm", JStr "8px"); ("md", JStr "16px");
       ("lg", JStr "24px"); ("xl", JStr "32px"); ("xxl", JStr "48px")].
Definition defaultAnimationDuration : value :=
  obj [("fast", JStr "150ms"); ("normal", JStr "300ms"); ("slow", JStr "500ms")].

Definition defaultBorderRadius : value :=
  obj [("small", JStr "4px"); ("medium", JStr "8px"); ("large", JStr "12px");
       ("full", JStr "9999px")].
Definition defaultShadows : value :=
  obj [("sm", JStr "0 1px 2px rgba(0,0,0,0.1)");
       ("md", JStr "0 4px 6px rgba(0,0,0,0.1)");
       ("lg", JStr "0 10px 15px rgba(0,0,0,0.1)")].
Definition defaultColors : value :=
  obj [("light", obj [("primary", JStr "#000"); ("text", JStr "#000");
                      ("background", JStr "#fff")]);
       ("dark", obj [("primary", JStr "#fff"); ("text", JStr "#fff");
                     ("background", JStr "#000")])].

(** The [safeDs] object: the properties of [ds], then the six groups. *)
Definition safeDs (ds : value) : value :=
  JObj (
    <["colors" := ds?."colors" ||| defaultColors]> (
    <["typography" := obj [
        ("fontFamily", ds?."typography"?."fontFamily" ||| JStr "sans-serif");
        ("scale", JObj (spread defaultTypographyScale (ds?."typography"?."scale")))]]> (
    <["spacing" := obj [
        ("base", ds?."spacing"?."base" ||| JNum 4%float);
        ("scale", JObj (spread defaultSpacingScale (ds?."spacing"?."scale")))]]> (
    <["animation" := obj [
        ("easing", ds?."animation"?."easing" ||| JStr "ease");
        ("duration", JObj (spread defaultAnimationDuration (ds?."animation"?."duration")))]]> (
    <["shadows" := ds?."shadows" ||| defaultShadows]> (
    <["borderRadius" := ds?."borderRadius" ||| defaultBorderRadius]> (
    ownProps ds))))))).

Definition emergencyPalette : value :=
  obj [("background", JStr "#fff"); ("text", JStr "#000")].

(** The constants of the render scope that the styles are derived from. *)
Record Scope : Type := {
  safe : value;
  colors : value;
  comps : value;
  borderRadius : value;
  shadows : value
}.

(** From [safeDs] to the palette, the component specs, the radii and the
    shadows. *)
Definition resolve (ds : value) (mode : Mode) : res Scope :=
  let safeDs := safeDs ds in
  colors ← (cs ← getProp safeDs "colors"; getProp cs (mode_key mode))
             ||? (cs ← getProp safeDs "colors"; getProp cs "light")
             ||? Ok emergencyPalette;
  comps ← getProp safeDs "components" ||? Ok (obj []);
  borderRadius ← getProp safeDs "borderRadius";
  shadows ← getProp safeDs "shadows";
  mret {| safe := safeDs; colors := colors; comps := comps;
          borderRadius := borderRadius; shadows := shadows |}.

(** *** Component styles *)

Definition btnPrimary (sc : Scope) : res value :=
  Ok (comps sc)?."buttons"?."primary" ||? (
    background ← getProp (colors sc) "primary" ||? Ok (JStr "#000000");
    hover ← getProp (colors sc) "primaryHover" ||? getProp (colors sc) "primary"
              ||? Ok (JStr "#333333");
    radius ← getProp (borderRadius sc) "medium";
    mret (obj [("background", background); ("text", JStr "#FFFFFF");
               ("hover", hover); ("radius", radius)])).


Definition cardStyle (sc : Scope) : res value :=
  background ← Ok (comps sc)?."cards"?."background" ||? getProp (colors sc) "surface"
                 ||? Ok (JStr "#FFFFFF");
  radius ← Ok (comps sc)?."cards"?."radius" ||? getProp (borderRadius sc) "large";
  shadow ← Ok (comps sc)?."cards"?."shadow" ||? getProp (shadows sc) "md";
  hoverShadow ← Ok (comps sc)?."cards"?."hoverShadow" ||? getProp (shadows sc) "lg";
  mret (obj [("background", background); ("radius", radius);
             ("shadow", shadow); ("hoverShadow", hoverShadow)]).

Definition inputStyle (sc : Scope) : res value :=
  background ← Ok (comps sc)?."inputs"?."background"
                 ||? getProp (colors sc) "surfaceHighlight" ||? Ok (JStr "#F5F5F5");
  border ← Ok (comps sc)?."inputs"?."border" ||? getProp (colors sc) "border"
                 ||? Ok (JStr "#E5E5E5");
  focusBorder ← Ok (comps sc)?."inputs"?."focusBorder" ||? getProp (colors sc) "primary"
                 ||? Ok (JStr "#000000");
  radius ← Ok (comps sc)?."inputs"?."radius" ||? getProp (borderRadius sc) "medium";
  mret (obj [("background", background); ("border", border);
             ("focusBorder", focusBorder); ("radius", radius)]).


(** *** String conversion, badges and the export block *)

(** A template literal: the literal chunks and the substituted values. *)
Inductive piece : Type :=
| Quasi (s : string)
| Subst (v : value).

Definition LF : string := String (Ascii.ascii_of_nat 10) EmptyString.

Section Rendering.

(** [Number::toString] is the engine's; the conversions take it as given. *)
Variable Number_toString : float → string.

(** [ToString], as [+] with a string operand and template literals apply
    it: an array joins its elements with commas, a plain object prints as
    [[object Object]]. *)
Fixpoint ToString (v : value) : string :=
  match v with
  | JUndefined => "undefined"
  | JNull => "null"
  | JBool true => "true"
  | JBool false => "false"
  | JNum n => Number_toString n
  | JStr s => s
  | JArr xs =>
      String.concat ","
        (map (λ x, if nullish x then "" else ToString x) xs)
  | JObj _ => "[object Object]"
  end.

Definition template (ps : list piece) : string :=
  String.concat ""
    (map (λ p, match p with Quasi s => s | Subst v => ToString v end) ps).




End Rendering.

(** The developer export block, as the template literal has it. *)
Definition cssExport (mode : Mode) (sc : Scope) : res (list piece) :=
  primary ← getProp (colors sc) "primary";
  primaryHover ← getProp (colors sc) "primaryHover";
  secondary ← getProp (colors sc) "secondary";
  success ← getProp (colors sc) "success";
  error ← getProp (colors sc) "error";
  warning ← getProp (colors sc) "warning";
  info ← getProp (colors sc) "info";
  background ← getProp (colors sc) "background";
  text ← getProp (colors sc) "text";
  btn ← btnPrimary sc;
  btnRadius ← getProp btn "radius";
  card ← cardStyle sc;
  cardRadius ← getProp card "radius";
  cardShadow ← getProp card "shadow";
  input ← inputStyle sc;
  inputRadius ← getProp input "radius";
  animation ← getProp (safe sc) "animation";
  easing ← getProp animation "easing";
  duration ← getProp animation "duration";
  normal ← getProp duration "normal";
  mret [
    Quasi (":root {" +:+ LF +:+ "  /* Colors ("); Subst (JStr (mode_key mode));
    Quasi (") */" +:+ LF +:+ "  --primary: "); Subst primary;
    Quasi (";" +:+ LF +:+ "  --primary-hover: "); Subst primaryHover;
    Quasi (";" +:+ LF +:+ "  --secondary: "); Subst secondary;
    Quasi (";" +:+ LF +:+ "  --success: "); Subst success;
    Quasi (";" +:+ LF +:+ "  --error: "); Subst error;
    Quasi (";" +:+ LF +:+ "  --warning: "); Subst warning;
    Quasi (";" +:+ LF +:+ "  --info: "); Subst info;
    Quasi (";" +:+ LF +:+ "  --background: "); Subst background;
    Quasi (";" +:+ LF +:+ "  --text: "); Subst text;
    Quasi (";" +:+ LF +:+ "  " +:+ LF +:+ "  /* Components */" +:+ LF
             +:+ "  --btn-radius: "); Subst btnRadius;
    Quasi (";" +:+ LF +:+ "  --card-radius: "); Subst cardRadius;
    Quasi (";" +:+ LF +:+ "  --card-shadow: "); Subst cardShadow;
    Quasi (";" +:+ LF +:+ "  --input-radius: "); Subst inputRadius;
    Quasi (";" +:+ LF +:+ LF +:+ "  /* Motion */" +:+ LF
             +:+ "  --ease-default: "); Subst easing;
    Quasi (";" +:+ LF +:+ "  --duration-normal: "); Subst normal;
    Quasi (";" +:+ LF +:+ "}")
  ].

(** Reading the block back: a custom property is declared where a literal
    chunk ends in a line [--name: ] and a substitution follows; the
    substitution is the value the name is bound to. *)
Definition is_LF (c : ascii) : bool := Ascii.eqb c (Ascii.ascii_of_nat 10).
Definition is_space (c : ascii) : bool := Ascii.eqb c " "%char.

Fixpoint take_until (p : ascii → bool) (cs : list ascii) : list ascii :=
  match cs with
  | [] => []
  | c :: cs' => if p c then [] else c :: take_until p cs'
  end.

Fixpoint drop_while_ascii (p : ascii → bool) (cs : list ascii) : list ascii :=
  match cs with
  | [] => []
  | c :: cs' => if p c then drop_while_ascii p cs' else cs
  end.

Definition last_line (s : string) : list ascii :=
  rev (take_until is_LF (rev (list_ascii_of_string s))).

Definition declared_name (q : string) : option string :=
  match rev (drop_while_ascii is_space (last_line q)) with
  | " "%char :: ":"%char :: rname =>
      match rev rname with
      | "-"%char :: "-"%char :: _ => Some (string_of_list_ascii (rev rname))
      | _ => None
      end
  | _ => None
  end.

Fixpoint declarations (ps : list piece) : list (string * value) :=
  match ps with
  | Quasi q :: ((Subst v :: _) as rest) =>
      match declared_name q with
      | Some name => (name, v) :: declarations rest
      | None => declarations rest
      end
  | _ :: rest => declarations rest
  | [] => []
  end.

Definition substitutions (ps : list piece) : list value :=
  omap (λ p, match p with Subst v => Some v | Quasi _ => None end) ps.

(** ** ProjectBlueprint: the top-level sections *)

Module ProjectBlueprint.

Definition defaultProject : value :=
  obj [("name", JStr "New Project"); ("version", JStr "0.1.0");
       ("tagline", JStr ""); ("description", JStr "");
       ("domain", JStr "example.com"); ("locale", JStr "en-US")].
Definition defaultLanding : value :=
  obj [("structure", JArr []); ("sections", obj [])].
Definition defaultApp : value :=
  obj [("dashboard", obj [("modules", JArr [])])].
Definition defaultGrowth : value :=
  obj [("viralLoop", obj [("mechanism", JStr "N/A")]);
       ("onboarding", obj [("gamified", JBool false)])].
Definition defaultTech : value :=
  obj [("stackPreset", JStr "N/A");
       ("persistence", obj [("mode", JStr "N/A")]);
       ("quality", obj [("unitTests", JBool false); ("e2eTests", JBool false)])].
Definition defaultAuth : value :=
  obj [("providers", JArr [])].
Definition defaultSeo : value :=
  obj [("indexing", obj [("robotsTxt", JStr "N/A"); ("sitemap", JBool false)])].
Definition defaultDesignSystem : value :=
  obj [("theme", JStr "light"); ("colors", obj []); ("components", obj [])].

Record Sections : Type := {
  project : value;
  landing : value;
  app : value;
  growth : value;
  tech : value;
  auth : value;
  seo : value;
  designSystem : value
}.

(** The eight constants at the head of the component. *)
Definition sections (manifest : value) : res Sections :=
  project ← getProp manifest "project" ||? Ok defaultProject;
  landing ← getProp manifest "landing" ||? Ok defaultLanding;
  app ← getProp manifest "app" ||? Ok defaultApp;
  growth ← getProp manifest "growth" ||? Ok defaultGrowth;
  tech ← getProp manifest "tech" ||? Ok defaultTech;
  auth ← getProp manifest "auth" ||? Ok defaultAuth;
  seo ← getProp manifest "seo" ||? Ok defaultSeo;
  designSystem ← getProp manifest "designSystem" ||? Ok defaultDesignSystem;
  mret {| project := project; landing := landing; app := app; growth := growth;
          tech := tech; auth := auth; seo := seo; designSystem := designSystem |}.

(** The [ds] handed to [StyleguideDisplay] on the design tab:
    [{...designSystem, projectName: project.name}]. *)
Definition styleguideProps (manifest : value) : res value :=
  s ← sections manifest;
  name ← getProp (project s) "name";
  mret (JObj (<["projectName" := name]> (ownProps (designSystem s)))).

End ProjectBlueprint.

(** ** geminiService: the generation call *)

Module geminiService.

(** A part of the image response: its [inlineData], a MIME type and the
    base64 payload, when it has one. *)
Record Part : Type := { inlineData : option (string * string) }.

(** What the outside world answers to one request. *)
Record Env : Type := {
  (** [process.env.API_KEY] *)
  API_KEY : option string;
  (** the manifest request: it throws, or answers with [response.text] *)
  manifestResponse : res (option string);
  (** the image request: it throws, or answers with
      [candidates?.[0]?.content?.parts] *)
  imageResponse : res (option (list Part))
}.

Definition is_image (p : Part) : bool :=
  match inlineData p with
  | Some (mimeType, _) => String.prefix "image/" mimeType
  | None => false
  end.

Definition dataUri (p : Part) : option string :=
  match inlineData p with
  | Some (mimeType, data) => Some ("data:" +:+ mimeType +:+ ";base64," +:+ data)
  | None => None
  end.

(** [manifest.designSystem.uiImage = uri] *)
Definition setUiImage (manifest : value) (uri : string) : res value :=
  ds ← getProp manifest "designSystem";
  match manifest, ds with
  | JObj m, JObj d => Ok (JObj (<["designSystem" := JObj (<["uiImage" := JStr uri]> d)]> m))
  | _, _ => Throw TypeError
  end.

(** The body of the inner [try]: build the image prompt, ask for the image,
    keep the first image part. *)
Definition visualize (env : Env) (manifest : value) : res value :=
  project ← getProp manifest "project";
  _ ← getProp project "name";
  project ← getProp manifest "project";
  _ ← getProp project "tagline";
  ds ← getProp manifest "designSystem";
  _ ← getProp ds "theme";
  ds ← getProp manifest "designSystem";
  cs ← getProp ds "colors";
  l ← getProp cs "light";
  _ ← getProp l "primary";
  parts ← imageResponse env;
  match parts with
  | Some ps =>
      match List.find is_image ps with
      | Some p =>
          match dataUri p with
          | Some uri => setUiImage manifest uri
          | None => Ok manifest
          end
      | None => Ok manifest
      end
  | None => Ok manifest
  end.

Section Parse.

(** [JSON.parse]: the parsed document, or a [SyntaxError]. *)
Variable JSON_parse : string → res value.

Definition generateProjectManifest
    (env : Env) (prompt : string) (referenceImageBase64 : option string)
    : res value :=
  match API_KEY env with
  | None | Some "" => Throw (Error "API Key is missing")
  | Some _ =>
      (* try *)
      response ← manifestResponse env;
      match response with
      | None | Some "" => Throw (Error "No response from AI")
      | Some text =>
          manifest ← JSON_parse text;
          (* try { ... } catch (e) { console.warn(...) } *)
          match visualize env manifest with
          | Ok manifest' => Ok manifest'
          | Throw _ => Ok manifest
          end
      end
      (* catch (error) { throw error } *)
  end.

End Parse.

End geminiService.

(** ** App: the generation request *)

Module App.

Record State : Type := {
  prompt : string;
  loading : bool;
  error : option string;
  manifest : value;
  isListening : bool;
  selectedImage : option string
}.

Definition initial : State :=
  {| prompt := ""; loading := false; error := None; manifest := JNull;
     isListening := false; selectedImage := None |}.

Definition setLoading (b : bool) (st : State) : State :=
  {| prompt := prompt st; loading := b; error := error st;
     manifest := manifest st; isListening := isListening st;
     selectedImage := selectedImage st |}.
Definition setError (e : option string) (st : State) : State :=
  {| prompt := prompt st; loading := loading st; error := e;
     manifest := manifest st; isListening := isListening st;
     selectedImage := selectedImage st |}.
Definition setManifest (m : value) (st : State) : State :=
  {| prompt := prompt st; loading := loading st; error := error st;
     manifest := m; isListening := isListening st;
     selectedImage := selectedImage st |}.

(** [String.prototype.trim] over the ASCII white space and line ends. *)
Definition is_white (c : ascii) : bool :=
  let n := nat_of_ascii c in
  (Nat.leb 9 n && Nat.leb n 13) || Nat.eqb n 32.
Definition trim (s : string) : string :=
  string_of_list_ascii
    (rev (drop_while_ascii is_white
       (rev (drop_while_ascii is_white (list_ascii_of_string s))))).

Definition str_truthy (s : string) : bool := negb (String.eqb s "").
Definition opt_truthy (o : option string) : bool :=
  match o with Some s => str_truthy s | None => false end.

(** [!prompt.trim() && !selectedImage]: nothing to send. *)
Definition nothingToSend (st : State) : bool :=
  negb (str_truthy (trim (prompt st))) && negb (opt_truthy (selectedImage st)).

Definition genericError : string :=
  "Failed to generate project manifest. Please check your API key and try again.".

(** The state while the request is in flight. *)
Definition pending (st : State) : State :=
  setError None (setLoading true st).

(** The state once the awaited call has settled: [try], [catch],
    [finally]. *)
Definition settle (outcome : res value) (st : State) : State :=
  let st' :=
    match outcome with
    | Ok data => setManifest data st
    | Throw _ => setError (Some genericError) st
    end in
  setLoading false st'.

Section Parse.

Variable JSON_parse : string → res value.

Definition request (env : geminiService.Env) (st : State) : res value :=
  geminiService.generateProjectManifest JSON_parse env (prompt st)
    (if opt_truthy (selectedImage st) then selectedImage st else None).

Definition handleGenerate (env : geminiService.Env) (st : State) : State :=
  if nothingToSend st then st
  else settle (request env st) (pending st).

End Parse.

End App.

(** ** The required fields of a design system

    The leaves of the [DesignSystem] interface under the six groups that
    [safeDs] fills in. *)

Definition colorTokens : list string :=
  ["primary"; "primaryHover"; "secondary"; "surface"; "surfaceHighlight";
   "background"; "text"; "textSecondary"; "border"; "success"; "warning";
   "error"; "info"].

Definition requiredFields : list (list string) :=
  ((λ k, ["borderRadius"; k]) <$> ["small"; "medium"; "large"; "full"])
  ++ ((λ k, ["shadows"; k]) <$> ["sm"; "md"; "lg"])
  ++ [["animation"; "easing"]]
  ++ ((λ k, ["animation"; "duration"; k]) <$> ["fast"; "normal"; "slow"])
  ++ [["spacing"; "base"]]
  ++ ((λ k, ["spacing"; "scale"; k]) <$> ["xs"; "sm"; "md"; "lg"; "xl"; "xxl"])
  ++ [["typography"; "fontFamily"]]
  ++ ((λ k, ["typography"; "scale"; k]) <$> ["h1"; "h2"; "h3"; "body"; "caption"])
  ++ ((λ k, ["colors"; "light"; k]) <$> colorTokens)
  ++ ((λ k, ["colors"; "dark"; k]) <$> colorTokens).

(** [v?.k1?.k2...] *)
Definition at_path (v : value) (path : list string) : value :=
  foldl optProp v path.

Definition is_undefined (v : value) : bool :=
  match v with JUndefined => true | _ => false end.

(** No required field is missing: every one of them reads as something other
    than [undefined]. *)
Definition fullyPopulated (theme : value) : bool :=
  forallb (λ path, negb (is_undefined (at_path theme path))) requiredFields.

(** The own property [k] exists on [v]. *)
Definition hasOwn (v : value) (k : string) : Prop :=
  is_Some (ownProps v !! k).

(** The palette line of [resolve], read as a chain of [||]. *)
Definition palette (ds : value) (mode : Mode) : value :=
  let cs := ds?."colors" ||| defaultColors in
  prop cs (mode_key mode) ||| prop cs "light" ||| emergencyPalette.

(** What a key-wise merge of [raw] over [defaults] holds at key [k]: the
    entry of [raw] when [raw] has the key, the default otherwise. *)
Definition mergedAt (defaults raw : value) (k : string) : option value :=
  match ownProps raw !! k with
  | Some v => Some v
  | None => ownProps defaults !! k
  end.

(** What [resolve] guarantees of a scope: the palette, the radii and the
    shadows can be read from. *)
Definition readable (sc : Scope) : Prop :=
  truthy (colors sc) = true
  ∧ truthy (borderRadius sc) = true
  ∧ truthy (shadows sc) = true.

(** The eight sections: the key read from the manifest, the constant it is
    bound to, and the literal it defaults to. *)
Definition sectionTable : list (string * (ProjectBlueprint.Sections → value) * value) :=
  [("project", ProjectBlueprint.project, ProjectBlueprint.defaultProject);
   ("landing", ProjectBlueprint.landing, ProjectBlueprint.defaultLanding);
   ("app", ProjectBlueprint.app, ProjectBlueprint.defaultApp);
   ("growth", ProjectBlueprint.growth, ProjectBlueprint.defaultGrowth);
   ("tech", ProjectBlueprint.tech, ProjectBlueprint.defaultTech);
   ("auth", ProjectBlueprint.auth, ProjectBlueprint.defaultAuth);
   ("seo", ProjectBlueprint.seo, ProjectBlueprint.defaultSeo);
   ("designSystem", ProjectBlueprint.designSystem, ProjectBlueprint.defaultDesignSystem)].

(** ** StyleguideDisplay: the heading and the spacing sample *)

(** [safeDs.projectName || 'Project'] *)
Definition headerTitle (sc : Scope) : res value :=
  getProp (safe sc) "projectName" ||? Ok (JStr "Project").

(** Property keys that are array indices: the canonical decimal form of an
    integer below [2^32 - 1].  An object lists these keys first, in ascending
    order, and its other keys after them in the order they were added. *)
Definition digit_of (c : ascii) : option N :=
  let n := N_of_ascii c in
  if (48 <=? n)%N && (n <=? 57)%N then Some (n - 48)%N else None.

Fixpoint digits_value (acc : N) (s : string) : option N :=
  match s with
  | EmptyString => Some acc
  | String c s' =>
      match digit_of c with
      | Some d => digits_value (acc * 10 + d)%N s'
      | None => None
      end
  end.

Definition arrayIndex (k : string) : option N :=
  match k with
  | EmptyString => None
  | String c rest =>
      if Ascii.eqb c "0"%char && negb (String.eqb rest "") then None
      else match digits_value 0%N k with
           | Some n => if (n <? 4294967295)%N then Some n else None
           | None => None
           end
  end.

Definition is_index (k : string) : bool :=
  match arrayIndex k with Some _ => true | None => false end.

(** The keys of [{ ...defaults, ...raw }] in the order [Object.entries]
    walks them, from the keys of the two operands in their own order:
    the keys are added defaults first, the new keys of [raw] after them. *)
Definition spreadKeys (defaultKeys rawKeys : list string) : list string :=
  let added :=
    (defaultKeys
     ++ List.filter (λ k, negb (existsb (String.eqb k) defaultKeys)) rawKeys)%list in
  ((pretty <$> merge_sort N.le (omap arrayIndex added))
   ++ List.filter (λ k, negb (is_index k)) added)%list.

Definition spacingScaleKeys : list string :=
  ["xs"; "sm"; "md"; "lg"; "xl"; "xxl"].

(** [Object.entries(safeDs.spacing.scale).slice(0,4)], given the keys of
    [ds.spacing.scale] in their order. *)
Definition spacingSample (rawKeys : list string) (sc : Scope)
    : res (list (string * value)) :=
  spacing ← getProp (safe sc) "spacing";
  scale ← getProp spacing "scale";
  if nullish scale then Throw TypeError
  else mret (take 4 ((λ k, (k, prop scale k)) <$> spreadKeys spacingScaleKeys rawKeys)).

(** ** ProjectBlueprint: what the tabs show *)

Module BlueprintView.

(** Evaluations made one after the other: the first throw ends them. *)
Fixpoint sequence {A} (rs : list (res A)) : res (list A) :=
  match rs with
  | [] => Ok []
  | r :: rs' =>
      match r with
      | Ok a =>
          match sequence rs' with
          | Ok l => Ok (a :: l)
          | Throw e => Throw e
          end
      | Throw e => Throw e
      end
  end.

(** [v.map(f)]: only an array has a [map] to call. *)
Definition js_map {A} (f : nat → value → res A) (v : value) : res (list A) :=
  match v with
  | JArr xs => sequence (imap f xs)
  | _ => Throw TypeError
  end.

(** [s.replace(/_/g, ' ')] *)
Fixpoint replace_underscores (s : string) : string :=
  match s with
  | EmptyString => EmptyString
  | String c s' =>
      String (if Ascii.eqb c "_"%char then " "%char else c) (replace_underscores s')
  end.



(** One entry of the landing list: its number, its label, its title. *)
Record LandingCard : Type := {
  number : nat;
  label : string;
  title : value
}.

(** [landing.sections?.[section]?.headline || landing.sections?.[section]?.title
    || "Content Block"] *)
Definition sectionTitle (landing : value) (section : string) : res value :=
  (sections ← getProp landing "sections"; Ok sections?.section?."headline")
  ||? (sections ← getProp landing "sections"; Ok sections?.section?."title")
  ||? Ok (JStr "Content Block").

Definition landingCard (landing : value) (idx : nat) (section : value)
    : res LandingCard :=
  match section with
  | JStr s =>
      title ← sectionTitle landing s;
      mret {| number := idx + 1; label := replace_underscores s; title := title |}
  | _ => Throw TypeError
  end.

(** [(landing.structure || []).map((section, idx) => ...)] *)
Definition landingCards (landing : value) : res (list LandingCard) :=
  structure ← getProp landing "structure" ||? Ok (JArr []);
  js_map (landingCard landing) structure.

(** One card of the dashboard grid: [mod.label] and [mod.type || 'module']. *)
Definition moduleCard (idx : nat) (module : value) : res (value * value) :=
  _ ← getProp module "id";
  label ← getProp module "label";
  type ← getProp module "type" ||? Ok (JStr "module");
  mret (label, type).

(** [(app.dashboard?.modules || []).map((mod) => ...)] *)
Definition moduleCards (app : value) : res (list (value * value)) :=
  modules ← (dashboard ← getProp app "dashboard"; Ok dashboard?."modules")
             ||? Ok (JArr []);
  js_map moduleCard modules.

(** [(auth.providers || []).map(p => ...)] *)
Definition providerItems (auth : value) : res (list value) :=
  providers ← getProp auth "providers" ||? Ok (JArr []);
  js_map (λ _ p, Ok p) providers.

(** [growth.viralLoop?.mechanism || 'Not specified'] *)
Definition viralLoopLabel (growth : value) : res value :=
  (viralLoop ← getProp growth "viralLoop"; Ok viralLoop?."mechanism")
  ||? Ok (JStr "Not specified").

(** [seo.indexing?.robotsTxt || 'Allow All'] *)
Definition indexingLabel (seo : value) : res value :=
  (indexing ← getProp seo "indexing"; Ok indexing?."robotsTxt")
  ||? Ok (JStr "Allow All").

(** [project.locale || 'en-US'] *)
Definition localeLabel (project : value) : res value :=
  getProp project "locale" ||? Ok (JStr "en-US").

(** The copy button.  [copyToClipboard] shows the indicator and starts a
    timer; every timer, when it fires, hides the indicator.  No timer is
    ever cancelled, so the state keeps how many are still to fire. *)
Record CopyState : Type := {
  copied : bool;
  timers : nat
}.

Inductive CopyEvent : Type :=
| Click
| TimerFires.

Definition copyInitial : CopyState := {| copied := false; timers := 0 |}.

Definition copyStep (st : CopyState) (ev : CopyEvent) : CopyState :=
  match ev with
  | Click => {| copied := true; timers := S (timers st) |}
  | TimerFires =>
      match timers st with
      | O => st
      | S n => {| copied := false; timers := n |}
      end
  end.

Definition copyRun (evs : list CopyEvent) : CopyState :=
  foldl copyStep copyInitial evs.

End BlueprintView.

(** ** geminiService: the reference image *)

Module geminiRequest.

(** [s.split(sep)] for a one-character separator. *)
Fixpoint split_on (sep : ascii) (s : string) : list string :=
  match s with
  | EmptyString => [EmptyString]
  | String c s' =>
      if Ascii.eqb c sep then EmptyString :: split_on sep s'
      else match split_on sep s' with
           | x :: xs => String c x :: xs
           | [] => [String c EmptyString]
           end
  end.

(** [referenceImageBase64.split(',')[1] || referenceImageBase64] *)
Definition cleanBase64 (referenceImageBase64 : string) : string :=
  match split_on ","%char referenceImageBase64 !! 1 with
  | Some segment => if String.eqb segment "" then referenceImageBase64 else segment
  | None => referenceImageBase64
  end.

End geminiRequest.

(** ** App: the other handlers *)

Module AppHandlers.

Definition setPrompt (p : string) (st : App.State) : App.State :=
  {| App.prompt := p; App.loading := App.loading st; App.error := App.error st;
     App.manifest := App.manifest st; App.isListening := App.isListening st;
     App.selectedImage := App.selectedImage st |}.
Definition setIsListening (b : bool) (st : App.State) : App.State :=
  {| App.prompt := App.prompt st; App.loading := App.loading st;
     App.error := App.error st; App.manifest := App.manifest st;
     App.isListening := b; App.selectedImage := App.selectedImage st |}.
Definition setSelectedImage (i : option string) (st : App.State) : App.State :=
  {| App.prompt := App.prompt st; App.loading := App.loading st;
     App.error := App.error st; App.manifest := App.manifest st;
     App.isListening := App.isListening st; App.selectedImage := i |}.

Definition unsupported : string :=
  "Votre navigateur ne supporte pas la reconnaissance vocale.".

(** [toggleVoiceInput], given whether the platform has a recognizer: the
    new state, and whether a recognition was started. *)
Definition toggleVoiceInput (supported : bool) (st : App.State) : App.State * bool :=
  if App.isListening st then (setIsListening false st, false)
  else if negb supported then (App.setError (Some unsupported) st, false)
  else (st, true).

(** What a started recognition reports back. *)
Inductive RecognitionEvent : Type :=
| onstart
| onend
| onerror
| onresult (transcript : string).

Definition recognitionStep (st : App.State) (ev : RecognitionEvent) : App.State :=
  match ev with
  | onstart => setIsListening true st
  | onend => setIsListening false st
  | onerror => setIsListening false st
  | onresult transcript =>
      setPrompt
        (if App.str_truthy (App.prompt st)
         then App.prompt st +:+ " " +:+ transcript
         else transcript) st
  end.

Definition clearImage (st : App.State) : App.State := setSelectedImage None st.

Section Download.

Variable Number_toString : float → string.

(** [handleDownload]: nothing without a manifest, else the name the file is
    offered under, [`${manifest.project.id || 'project'}-manifest.json`]. *)
Definition handleDownload (st : App.State) : res (option string) :=
  if negb (truthy (App.manifest st)) then Ok None
  else
    id ← (project ← getProp (App.manifest st) "project"; getProp project "id")
         ||? Ok (JStr "project");
    mret (Some (ToString Number_toString id +:+ "-manifest.json")).

End Download.

End AppHandlers.

(** * Properties *)

(** ** Values *)

Lemma truthy_not_nullish (v : value) : truthy v = true → nullish v = false.
Proof. by destruct v. Qed.

Lemma nullish_not_truthy (v : value) : nullish v = true → truthy v = false.
Proof. by destruct v. Qed.

Lemma optProp_prop (v : value) (k : string) : v?.k = prop v k.
Proof. by destruct v. Qed.

Lemma getProp_ok (v : value) (k : string) :
  nullish v = false → getProp v k = Ok (prop v k).
Proof. unfold getProp. by intros ->. Qed.

Lemma getProp_truthy (v : value) (k : string) :
  truthy v = true → getProp v k = Ok (prop v k).
Proof. intros H. by apply getProp_ok, truthy_not_nullish. Qed.


Lemma or_else_l (a b : value) : truthy a = true → a ||| b = a.
Proof. unfold or_else. by intros ->. Qed.

Lemma or_else_r (a b : value) : truthy a = false → a ||| b = b.
Proof. unfold or_else. by intros ->. Qed.


Lemma truthy_or_else (a b : value) : truthy b = true → truthy (a ||| b) = true.
Proof. unfold or_else. by destruct (truthy a) eqn:Ha. Qed.

Lemma or_else_m_ok (a b : value) : Ok a ||? Ok b = Ok (a ||| b).
Proof. unfold or_else_m, or_else; cbn. by destruct (truthy a). Qed.

(** A truthy left operand is the result, whatever the right one would do. *)
Lemma or_else_m_l (a : value) (b : res value) : truthy a = true → Ok a ||? b = Ok a.
Proof. unfold or_else_m; cbn. by intros ->. Qed.

Lemma or_else_m_r (a : value) (b : res value) : truthy a = false → Ok a ||? b = b.
Proof. unfold or_else_m; cbn. by intros ->. Qed.

(** Spreading lays the second operand over the first, key by key. *)
Lemma lookup_spread (a b : value) (k : string) :
  spread a b !! k =
    match ownProps b !! k with
    | Some v => Some v
    | None => ownProps a !! k
    end.
Proof.
  unfold spread. rewrite lookup_union.
  destruct (ownProps b !! k), (ownProps a !! k); done.
Qed.

(** ** The six groups of [safeDs] *)

Lemma safeDs_borderRadius (ds : value) :
  prop (safeDs ds) "borderRadius" = ds?."borderRadius" ||| defaultBorderRadius.
Proof. unfold prop, safeDs; simpl. by repeat (rewrite lookup_insert_ne; [|done]); rewrite lookup_insert_eq. Qed.

Lemma safeDs_shadows (ds : value) :
  prop (safeDs ds) "shadows" = ds?."shadows" ||| defaultShadows.
Proof. unfold prop, safeDs; simpl. by repeat (rewrite lookup_insert_ne; [|done]); rewrite lookup_insert_eq. Qed.

Lemma safeDs_colors (ds : value) :
  prop (safeDs ds) "colors" = ds?."colors" ||| defaultColors.
Proof. unfold prop, safeDs; simpl. by rewrite lookup_insert_eq. Qed.

Lemma safeDs_animation (ds : value) :
  prop (safeDs ds) "animation" =
    obj [("easing", ds?."animation"?."easing" ||| JStr "ease");
         ("duration", JObj (spread defaultAnimationDuration (ds?."animation"?."duration")))].
Proof. unfold prop, safeDs; simpl. by repeat (rewrite lookup_insert_ne; [|done]); rewrite lookup_insert_eq. Qed.

Lemma safeDs_spacing (ds : value) :
  prop (safeDs ds) "spacing" =
    obj [("base", ds?."spacing"?."base" ||| JNum 4%float);
         ("scale", JObj (spread defaultSpacingScale (ds?."spacing"?."scale")))].
Proof. unfold prop, safeDs; simpl. by repeat (rewrite lookup_insert_ne; [|done]); rewrite lookup_insert_eq. Qed.

Lemma safeDs_typography (ds : value) :
  prop (safeDs ds) "typography" =
    obj [("fontFamily", ds?."typography"?."fontFamily" ||| JStr "sans-serif");
         ("scale", JObj (spread defaultTypographyScale (ds?."typography"?."scale")))].
Proof. unfold prop, safeDs; simpl. by repeat (rewrite lookup_insert_ne; [|done]); rewrite lookup_insert_eq. Qed.

(** A property that is not one of the six groups comes from [ds] as it is. *)
Lemma safeDs_other (ds : value) (k : string) :
  k ∉ ["colors"; "typography"; "spacing"; "animation"; "shadows"; "borderRadius"] →
  prop (safeDs ds) k = ds?.k.
Proof.
  intros Hk. rewrite optProp_prop. unfold prop, safeDs; simpl.
  repeat (rewrite lookup_insert_ne; [|intros <-; apply Hk; set_solver]). done.
Qed.

Lemma safeDs_components (ds : value) :
  prop (safeDs ds) "components" = ds?."components".
Proof. apply safeDs_other. rewrite !not_elem_of_cons. repeat split; try done. apply not_elem_of_nil. Qed.


Lemma at_path_2 (v : value) (a b : string) : at_path v [a; b] = prop (prop v a) b.
Proof. unfold at_path; simpl. by rewrite !optProp_prop. Qed.

Lemma safeDs_animation_easing (ds : value) :
  at_path (safeDs ds) ["animation"; "easing"] = ds?."animation"?."easing" ||| JStr "ease".
Proof. by rewrite at_path_2, safeDs_animation. Qed.

Lemma safeDs_animation_duration (ds : value) :
  at_path (safeDs ds) ["animation"; "duration"] =
    JObj (spread defaultAnimationDuration (ds?."animation"?."duration")).
Proof. by rewrite at_path_2, safeDs_animation. Qed.

Lemma safeDs_spacing_base (ds : value) :
  at_path (safeDs ds) ["spacing"; "base"] = ds?."spacing"?."base" ||| JNum 4%float.
Proof. by rewrite at_path_2, safeDs_spacing. Qed.

Lemma safeDs_spacing_scale (ds : value) :
  at_path (safeDs ds) ["spacing"; "scale"] =
    JObj (spread defaultSpacingScale (ds?."spacing"?."scale")).
Proof. by rewrite at_path_2, safeDs_spacing. Qed.

Lemma safeDs_typography_fontFamily (ds : value) :
  at_path (safeDs ds) ["typography"; "fontFamily"] =
    ds?."typography"?."fontFamily" ||| JStr "sans-serif".
Proof. by rewrite at_path_2, safeDs_typography. Qed.

Lemma safeDs_typography_scale (ds : value) :
  at_path (safeDs ds) ["typography"; "scale"] =
    JObj (spread defaultTypographyScale (ds?."typography"?."scale")).
Proof. by rewrite at_path_2, safeDs_typography. Qed.

Lemma truthy_defaults :
  truthy defaultColors = true ∧ truthy defaultBorderRadius = true
  ∧ truthy defaultShadows = true ∧ truthy emergencyPalette = true.
Proof. done. Qed.

Lemma palette_truthy (ds : value) (mode : Mode) : truthy (palette ds mode) = true.
Proof. unfold palette. by apply truthy_or_else. Qed.

Lemma getProp_safeDs (ds : value) (k : string) :
  getProp (safeDs ds) k = Ok (prop (safeDs ds) k).
Proof. done. Qed.

(** [resolve] never throws, and this is what it returns. *)
Lemma resolve_ok (ds : value) (mode : Mode) :
  resolve ds mode =
    Ok {| safe := safeDs ds;
          colors := palette ds mode;
          comps := ds?."components" ||| obj [];
          borderRadius := ds?."borderRadius" ||| defaultBorderRadius;
          shadows := ds?."shadows" ||| defaultShadows |}.
Proof.
  unfold resolve; cbv zeta.
  rewrite !getProp_safeDs.
  rewrite safeDs_colors, safeDs_borderRadius, safeDs_shadows, safeDs_components.
  assert (Hc : truthy (ds?."colors" ||| defaultColors) = true) by by apply truthy_or_else.
  cbn [mbind res_bind mret res_ret].
  rewrite !(getProp_truthy _ _ Hc), !or_else_m_ok.
  cbn [mbind res_bind mret res_ret]. done.
Qed.

(** ** Theme resolution *)

Lemma ownProps_spread (a b : value) (k : string) :
  ownProps (JObj (spread a b)) !! k = mergedAt a b k.
Proof. apply lookup_spread. Qed.

Lemma hasOwn_spread (a b : value) (k : string) :
  hasOwn a k → hasOwn (JObj (spread a b)) k.
Proof.
  unfold hasOwn; simpl. rewrite lookup_spread.
  destruct (ownProps b !! k); eauto.
Qed.

(** C1, as stated, fails: the resolved theme can lack required fields.  With
    no input at all the default light palette holds three of the thirteen
    colour tokens, and a [borderRadius] given with [small] alone is kept
    without [medium], [large] and [full]. *)
Lemma resolved_theme_not_fully_populated :
  is_ok (resolve JUndefined light) = true
  ∧ at_path (safeDs JUndefined) ["colors"; "light"; "secondary"] = JUndefined
  ∧ fullyPopulated (safeDs JUndefined) = false
  ∧ is_ok (resolve (obj [("borderRadius", obj [("small", JStr "1px")])]) light) = true
  ∧ at_path (safeDs (obj [("borderRadius", obj [("small", JStr "1px")])]))
      ["borderRadius"; "medium"] = JUndefined
  ∧ fullyPopulated (safeDs (obj [("borderRadius", obj [("small", JStr "1px")])])) = false.
Proof. repeat split; vm_compute; reflexivity. Qed.

(** C1, amended: for every input, [undefined] included, resolving the theme
    never throws, and in the theme it returns each of the six groups is there:
    [borderRadius], [shadows] and [colors] are truthy values, [animation] has
    a truthy [easing] and a [duration] with the keys fast, normal and slow,
    [spacing] has a truthy [base] and a [scale] with the keys xs to xxl,
    [typography] has a truthy [fontFamily] and a [scale] with the keys h1 to
    caption, and the selected palette is a truthy value. *)
Theorem resolve_total (ds : value) (mode : Mode) :
  ∃ sc, resolve ds mode = Ok sc
    ∧ safe sc = safeDs ds
    ∧ truthy (prop (safe sc) "borderRadius") = true
    ∧ truthy (prop (safe sc) "shadows") = true
    ∧ truthy (prop (safe sc) "colors") = true
    ∧ truthy (at_path (safe sc) ["animation"; "easing"]) = true
    ∧ Forall (hasOwn (at_path (safe sc) ["animation"; "duration"]))
        ["fast"; "normal"; "slow"]
    ∧ truthy (at_path (safe sc) ["spacing"; "base"]) = true
    ∧ Forall (hasOwn (at_path (safe sc) ["spacing"; "scale"]))
        ["xs"; "sm"; "md"; "lg"; "xl"; "xxl"]
    ∧ truthy (at_path (safe sc) ["typography"; "fontFamily"]) = true
    ∧ Forall (hasOwn (at_path (safe sc) ["typography"; "scale"]))
        ["h1"; "h2"; "h3"; "body"; "caption"]
    ∧ truthy (colors sc) = true.
Proof.
  eexists. split; [apply resolve_ok|]. cbn [safe colors].
  rewrite safeDs_borderRadius, safeDs_shadows, safeDs_colors,
    safeDs_animation_easing, safeDs_animation_duration, safeDs_spacing_base,
    safeDs_spacing_scale, safeDs_typography_fontFamily, safeDs_typography_scale.
  repeat split; try (by apply truthy_or_else); try apply palette_truthy;
    repeat (apply Forall_cons; split; [apply hasOwn_spread; by eexists|]);
    apply Forall_nil_2.
Qed.

(** C2: the three structured groups are merged key by key over their default
    mappings: at every key the resolved group holds the raw entry when the raw
    group has that key and the default entry otherwise.  With
    [raw.typography.scale = {h1: "3rem"}] the resolved scale has that [h1]
    and the default h2, h3, body and caption. *)
Theorem keywise_merge (ds : value) (k : string) :
  ownProps (at_path (safeDs ds) ["typography"; "scale"]) !! k
    = mergedAt defaultTypographyScale (ds?."typography"?."scale") k
  ∧ ownProps (at_path (safeDs ds) ["spacing"; "scale"]) !! k
    = mergedAt defaultSpacingScale (ds?."spacing"?."scale") k
  ∧ ownProps (at_path (safeDs ds) ["animation"; "duration"]) !! k
    = mergedAt defaultAnimationDuration (ds?."animation"?."duration") k
  ∧ (ds?."typography"?."scale" = obj [("h1", JStr "3rem")] →
     at_path (safeDs ds) ["typography"; "scale"]
       = obj [("h1", JStr "3rem"); ("h2", JStr "2rem"); ("h3", JStr "1.75rem");
              ("body", JStr "1rem"); ("caption", JStr "0.875rem")]).
Proof.
  rewrite safeDs_typography_scale, safeDs_spacing_scale, safeDs_animation_duration.
  rewrite !ownProps_spread. repeat split.
  intros ->. vm_compute. reflexivity.
Qed.

Lemma keywise_merge_witness :
  let ds := obj [("typography", obj [("scale", obj [("h1", JStr "3rem")])])] in
  ds?."typography"?."scale" = obj [("h1", JStr "3rem")]
  ∧ prop (at_path (safeDs ds) ["typography"; "scale"]) "h1" = JStr "3rem"
  ∧ prop (at_path (safeDs ds) ["typography"; "scale"]) "h2" = JStr "2rem"
  ∧ prop (at_path (safeDs ds) ["typography"; "scale"]) "caption" = JStr "0.875rem".
Proof.
  intros ds.
  assert (H : ds?."typography"?."scale" = obj [("h1", JStr "3rem")]) by reflexivity.
  split; [exact H|].
  rewrite (proj2 (proj2 (proj2 (keywise_merge ds "h1"))) H).
  repeat split; reflexivity.
Defined.

(** C3: [borderRadius], [shadows] and [colors] are substituted whole.  Each
    resolves to [raw.field || default]: an object given by [raw], complete or
    not, is the result as it stands, and without the field ([undefined] or
    [null]) the result is the full default object.  With
    [raw.borderRadius = {small: "1px"}] the resolved [borderRadius] is that
    object and reads [undefined] at every other key. *)
Theorem whole_object_substitution (ds : value) :
  (prop (safeDs ds) "borderRadius" = ds?."borderRadius" ||| defaultBorderRadius
   ∧ prop (safeDs ds) "shadows" = ds?."shadows" ||| defaultShadows
   ∧ prop (safeDs ds) "colors" = ds?."colors" ||| defaultColors)
  ∧ (∀ m, ds?."borderRadius" = JObj m → prop (safeDs ds) "borderRadius" = JObj m)
  ∧ (∀ m, ds?."shadows" = JObj m → prop (safeDs ds) "shadows" = JObj m)
  ∧ (∀ m, ds?."colors" = JObj m → prop (safeDs ds) "colors" = JObj m)
  ∧ (nullish (ds?."borderRadius") = true →
       prop (safeDs ds) "borderRadius" = defaultBorderRadius)
  ∧ (nullish (ds?."shadows") = true → prop (safeDs ds) "shadows" = defaultShadows)
  ∧ (nullish (ds?."colors") = true → prop (safeDs ds) "colors" = defaultColors)
  ∧ (ds?."borderRadius" = obj [("small", JStr "1px")] →
       prop (safeDs ds) "borderRadius" = obj [("small", JStr "1px")]
       ∧ ownProps (prop (safeDs ds) "borderRadius") = {[ "small" := JStr "1px" ]}
       ∧ ∀ k, k ≠ "small" → ownProps (prop (safeDs ds) "borderRadius") !! k = None).
Proof.
  rewrite safeDs_borderRadius, safeDs_shadows, safeDs_colors.
  split; [done|].
  repeat split; try (by intros m ->); try (by intros H; apply or_else_r, nullish_not_truthy).
  all: rewrite H; try done.
  intros k Hk. cbn.
  rewrite insert_empty, lookup_singleton_ne; done.
Qed.

Lemma whole_object_substitution_witness :
  prop (safeDs (obj [("borderRadius", obj [("small", JStr "1px")])])) "borderRadius"
    = obj [("small", JStr "1px")]
  ∧ ownProps (prop (safeDs (obj [("borderRadius", obj [("small", JStr "1px")])]))
                "borderRadius") !! "medium" = None.
Proof.
  pose proof (whole_object_substitution
                (obj [("borderRadius", obj [("small", JStr "1px")])])) as H.
  destruct H as (_ & _ & _ & _ & _ & _ & _ & H).
  destruct (H eq_refl) as (H1 & _ & H3).
  split; [exact H1 | apply H3; discriminate].
Defined.



(** C8, as stated, fails: a supplied [spacing.base] of zero is not kept, the
    resolved base is 4. *)
Lemma spacing_base_zero_is_replaced :
  (obj [("spacing", obj [("base", JNum 0%float)])])?."spacing"?."base" = JNum 0%float
  ∧ at_path (safeDs (obj [("spacing", obj [("base", JNum 0%float)])])) ["spacing"; "base"]
    = JNum 4%float.
Proof. split; vm_compute; reflexivity. Qed.

(** C8, amended: the resolved [spacing.base] is [raw.spacing.base || 4].  It
    is 4 when raw gives no base, the supplied number when that number is
    neither zero nor NaN, and 4 again when the supplied number is zero or
    NaN. *)
Theorem spacing_base_default (ds : value) :
  at_path (safeDs ds) ["spacing"; "base"] = ds?."spacing"?."base" ||| JNum 4%float
  ∧ (nullish (ds?."spacing"?."base") = true →
       at_path (safeDs ds) ["spacing"; "base"] = JNum 4%float)
  ∧ (∀ n, ds?."spacing"?."base" = JNum n → num_truthy n = true →
       at_path (safeDs ds) ["spacing"; "base"] = JNum n)
  ∧ (∀ n, ds?."spacing"?."base" = JNum n → num_truthy n = false →
       at_path (safeDs ds) ["spacing"; "base"] = JNum 4%float).
Proof.
  rewrite safeDs_spacing_base. repeat split.
  - intros H. by apply or_else_r, nullish_not_truthy.
  - intros n -> H. by apply or_else_l.
  - intros n -> H. by apply or_else_r.
Qed.

Lemma spacing_base_default_witness :
  at_path (safeDs (obj [("spacing", obj [("base", JNum 8%float)])])) ["spacing"; "base"]
    = JNum 8%float
  ∧ at_path (safeDs JUndefined) ["spacing"; "base"] = JNum 4%float.
Proof.
  split.
  - apply (proj1 (proj2 (proj2 (spacing_base_default
      (obj [("spacing", obj [("base", JNum 8%float)])])))) 8%float); reflexivity.
  - apply (proj1 (proj2 (spacing_base_default JUndefined))); reflexivity.
Defined.

(** ** Component styles *)

Lemma resolve_readable (ds : value) (mode : Mode) (sc : Scope) :
  resolve ds mode = Ok sc → readable sc.
Proof.
  rewrite resolve_ok. intros [= <-]. unfold readable; cbn [colors borderRadius shadows].
  split; [apply palette_truthy|]. split; by apply truthy_or_else.
Qed.

Lemma prop_obj_cons (k : string) (v : value) (kvs : list (string * value)) (k' : string) :
  prop (obj ((k, v) :: kvs)) k' = if String.eqb k k' then v else prop (obj kvs) k'.
Proof.
  unfold prop, obj; cbn [ownProps]. rewrite list_to_map_cons, lookup_insert.
  destruct (String.eqb_spec k k') as [->|Hne]; case_decide; done.
Qed.

Lemma getProp_obj_lit (kvs : list (string * value)) (k : string) :
  getProp (obj kvs) k = Ok (prop (obj kvs) k).
Proof. done. Qed.

Ltac read_colors Hc :=
  repeat (rewrite (getProp_truthy _ _ Hc); rewrite ?or_else_m_ok;
          cbn [mbind res_bind mret res_ret]).


Lemma btnPrimary_eq (sc : Scope) :
  readable sc →
  btnPrimary sc =
    Ok ((comps sc)?."buttons"?."primary" |||
        obj [("background", prop (colors sc) "primary" ||| JStr "#000000");
             ("text", JStr "#FFFFFF");
             ("hover", prop (colors sc) "primaryHover" ||| prop (colors sc) "primary"
                         ||| JStr "#333333");
             ("radius", prop (borderRadius sc) "medium")]).
Proof.
  intros (Hc & Hb & Hs). unfold btnPrimary.
  read_colors Hc. read_colors Hb. apply or_else_m_ok.
Qed.


Lemma cardStyle_eq (sc : Scope) :
  readable sc →
  cardStyle sc =
    Ok (obj [("background", (comps sc)?."cards"?."background"
                              ||| prop (colors sc) "surface" ||| JStr "#FFFFFF");
             ("radius", (comps sc)?."cards"?."radius" ||| prop (borderRadius sc) "large");
             ("shadow", (comps sc)?."cards"?."shadow" ||| prop (shadows sc) "md");
             ("hoverShadow", (comps sc)?."cards"?."hoverShadow" ||| prop (shadows sc) "lg")]).
Proof.
  intros (Hc & Hb & Hs). unfold cardStyle.
  read_colors Hc. read_colors Hb. by read_colors Hs.
Qed.

Lemma inputStyle_eq (sc : Scope) :
  readable sc →
  inputStyle sc =
    Ok (obj [("background", (comps sc)?."inputs"?."background"
                              ||| prop (colors sc) "surfaceHighlight" ||| JStr "#F5F5F5");
             ("border", (comps sc)?."inputs"?."border"
                              ||| prop (colors sc) "border" ||| JStr "#E5E5E5");
             ("focusBorder", (comps sc)?."inputs"?."focusBorder"
                              ||| prop (colors sc) "primary" ||| JStr "#000000");
             ("radius", (comps sc)?."inputs"?."radius" ||| prop (borderRadius sc) "medium")]).
Proof.
  intros (Hc & Hb & Hs). unfold inputStyle.
  read_colors Hc. by read_colors Hb.
Qed.


Section RenderingFacts.

Variable Number_toString : float → string.



End RenderingFacts.




(** ** The developer export block *)

Lemma getProp_or_else (a b : value) (k : string) :
  truthy b = true → getProp (a ||| b) k = Ok (prop (a ||| b) k).
Proof. intros H. by apply getProp_truthy, truthy_or_else. Qed.

(** C7, as stated, fails: the block declares fifteen custom properties, not
    sixteen.  It has sixteen substitutions; the first is the mode, shown in a
    comment. *)
Lemma css_export_declares_fifteen :
  (sc ← resolve JUndefined light;
   ps ← cssExport light sc;
   mret (length (declarations ps), length (substitutions ps)))
  = Ok (15, 16)
  ∧ (sc ← resolve JUndefined light;
     ps ← cssExport light sc;
     mret (length (declarations ps))) ≠ Ok 16.
Proof. split; vm_compute; congruence. Qed.

(** C7, amended: for every input and either mode the export block declares
    exactly fifteen custom properties, with fixed names, each bound to the
    value resolved at that moment: nine palette tokens, the primary button's
    radius, the card's radius and shadow, the input's radius, the easing and
    the normal duration.  Its sixteen substitutions are the mode followed by
    those fifteen values. *)
Theorem css_export_block (ds : value) (mode : Mode) :
  ∃ sc btn card input ps,
    resolve ds mode = Ok sc
    ∧ btnPrimary sc = Ok btn ∧ cardStyle sc = Ok card ∧ inputStyle sc = Ok input
    ∧ cssExport mode sc = Ok ps
    ∧ declarations ps =
        [("--primary", prop (colors sc) "primary");
         ("--primary-hover", prop (colors sc) "primaryHover");
         ("--secondary", prop (colors sc) "secondary");
         ("--success", prop (colors sc) "success");
         ("--error", prop (colors sc) "error");
         ("--warning", prop (colors sc) "warning");
         ("--info", prop (colors sc) "info");
         ("--background", prop (colors sc) "background");
         ("--text", prop (colors sc) "text");
         ("--btn-radius", prop btn "radius");
         ("--card-radius", prop card "radius");
         ("--card-shadow", prop card "shadow");
         ("--input-radius", prop input "radius");
         ("--ease-default", at_path (safe sc) ["animation"; "easing"]);
         ("--duration-normal",
          prop (at_path (safe sc) ["animation"; "duration"]) "normal")]
    ∧ length (declarations ps) = 15
    ∧ substitutions ps = JStr (mode_key mode) :: (snd <$> declarations ps).
Proof.
  destruct (resolve ds mode) as [sc|e] eqn:Hsc; [|by rewrite resolve_ok in Hsc].
  pose proof (resolve_readable _ _ _ Hsc) as Hr.
  pose proof Hr as (Hc & Hb & Hs).
  assert (Hsafe : safe sc = safeDs ds) by (by rewrite resolve_ok in Hsc; injection Hsc as <-).
  exists sc. do 3 eexists.
  eexists.
  split; [done|]. split; [by apply btnPrimary_eq|].
  split; [by apply cardStyle_eq|]. split; [by apply inputStyle_eq|].
  unfold cssExport.
  read_colors Hc.
  rewrite btnPrimary_eq, cardStyle_eq, inputStyle_eq by done.
  cbn [mbind res_bind mret res_ret].
  rewrite getProp_or_else by done. cbn [mbind res_bind mret res_ret].
  rewrite !getProp_obj_lit. cbn [mbind res_bind mret res_ret].
  rewrite Hsafe, getProp_safeDs, safeDs_animation. cbn [mbind res_bind mret res_ret].
  rewrite !getProp_obj_lit. cbn [mbind res_bind mret res_ret].
  rewrite (getProp_ok (prop _ "duration")) by (by rewrite !prop_obj_cons).
  cbn [mbind res_bind mret res_ret].
  split; [reflexivity|].
  rewrite !at_path_2, safeDs_animation.
  repeat split.
Qed.

(** ** Manifest sections *)

Lemma sections_ok (manifest : value) :
  nullish manifest = false →
  ProjectBlueprint.sections manifest =
    Ok {| ProjectBlueprint.project :=
            prop manifest "project" ||| ProjectBlueprint.defaultProject;
          ProjectBlueprint.landing :=
            prop manifest "landing" ||| ProjectBlueprint.defaultLanding;
          ProjectBlueprint.app := prop manifest "app" ||| ProjectBlueprint.defaultApp;
          ProjectBlueprint.growth :=
            prop manifest "growth" ||| ProjectBlueprint.defaultGrowth;
          ProjectBlueprint.tech := prop manifest "tech" ||| ProjectBlueprint.defaultTech;
          ProjectBlueprint.auth := prop manifest "auth" ||| ProjectBlueprint.defaultAuth;
          ProjectBlueprint.seo := prop manifest "seo" ||| ProjectBlueprint.defaultSeo;
          ProjectBlueprint.designSystem :=
            prop manifest "designSystem" ||| ProjectBlueprint.defaultDesignSystem |}.
Proof.
  intros H. unfold ProjectBlueprint.sections.
  by rewrite !(getProp_ok _ _ H), !or_else_m_ok.
Qed.

(** A manifest that is [undefined] or [null] is outside the component's
    reach: reading the first section throws. *)
Lemma sections_nullish (manifest : value) :
  nullish manifest = true → ProjectBlueprint.sections manifest = Throw TypeError.
Proof. intros H. unfold ProjectBlueprint.sections, getProp. by rewrite H. Qed.

(** C6: for every raw manifest that is a value to read from (the empty
    object included) each of the eight sections resolves to
    [manifest.section || default]: a section given as an object passes
    through unchanged, an absent one is replaced by its literal default, and
    every resolved section is truthy, hence neither [null] nor [undefined].
    The project default is named "New Project", version "0.1.0". *)
Theorem sections_normalized (manifest : value) :
  nullish manifest = false →
  ∃ s, ProjectBlueprint.sections manifest = Ok s
    ∧ (∀ k get d, (k, get, d) ∈ sectionTable →
         get s = prop manifest k ||| d
         ∧ (∀ m, prop manifest k = JObj m → get s = JObj m)
         ∧ (nullish (prop manifest k) = true → get s = d)
         ∧ truthy (get s) = true
         ∧ nullish (get s) = false)
    ∧ prop ProjectBlueprint.defaultProject "name" = JStr "New Project"
    ∧ prop ProjectBlueprint.defaultProject "version" = JStr "0.1.0".
Proof.
  intros H. rewrite sections_ok by done. eexists. split; [reflexivity|].
  split; [|done].
  intros k get d Hin.
  match goal with
  | |- get ?s = _ ∧ _ =>
      assert (Hd : truthy d = true ∧ get s = prop manifest k ||| d)
  end.
  { repeat (apply elem_of_cons in Hin as [[= -> -> ->]|Hin]); [done.. |].
    by apply elem_of_nil in Hin. }
  destruct Hd as [Hd ->]. split; [done|].
  split; [by intros m ->|].
  split; [intros Hn; by apply or_else_r, nullish_not_truthy|].
  split; [by apply truthy_or_else | by apply truthy_not_nullish, truthy_or_else].
Qed.

Lemma sections_normalized_witness :
  ∃ s, ProjectBlueprint.sections (obj []) = Ok s
    ∧ ProjectBlueprint.project s = ProjectBlueprint.defaultProject
    ∧ ProjectBlueprint.designSystem s = ProjectBlueprint.defaultDesignSystem
    ∧ nullish (ProjectBlueprint.seo s) = false.
Proof.
  destruct (sections_normalized (obj []) eq_refl) as (s & Hs & H & _).
  exists s. split; [exact Hs|].
  split; [|split].
  - apply (H "project" ProjectBlueprint.project ProjectBlueprint.defaultProject).
    + apply list_elem_of_here.
    + reflexivity.
  - apply (H "designSystem" ProjectBlueprint.designSystem
             ProjectBlueprint.defaultDesignSystem).
    + do 7 apply list_elem_of_further. apply list_elem_of_here.
    + reflexivity.
  - apply (H "seo" ProjectBlueprint.seo ProjectBlueprint.defaultSeo).
    do 6 apply list_elem_of_further. apply list_elem_of_here.
Defined.

(** ** A manifest without a design system *)




(** ** The generation request *)

Section Generation.

Variable JSON_parse : string → res value.

(** Each way the call fails. *)
Lemma generate_missing_credential (env : geminiService.Env) (p : string) (i : option string) :
  App.opt_truthy (geminiService.API_KEY env) = false →
  geminiService.generateProjectManifest JSON_parse env p i
    = Throw (Error "API Key is missing").
Proof.
  unfold geminiService.generateProjectManifest.
  destruct (geminiService.API_KEY env) as [[|c k]|]; done.
Qed.

Lemma generate_service_error (env : geminiService.Env) (p : string) (i : option string) (e : exn) :
  App.opt_truthy (geminiService.API_KEY env) = true →
  geminiService.manifestResponse env = Throw e →
  geminiService.generateProjectManifest JSON_parse env p i = Throw e.
Proof.
  unfold geminiService.generateProjectManifest.
  destruct (geminiService.API_KEY env) as [[|c k]|]; try done.
  by intros _ ->.
Qed.

Lemma generate_no_content (env : geminiService.Env) (p : string) (i : option string)
    (text : option string) :
  App.opt_truthy (geminiService.API_KEY env) = true →
  geminiService.manifestResponse env = Ok text →
  App.opt_truthy text = false →
  geminiService.generateProjectManifest JSON_parse env p i
    = Throw (Error "No response from AI").
Proof.
  unfold geminiService.generateProjectManifest.
  destruct (geminiService.API_KEY env) as [[|c k]|]; try done.
  intros _ -> H. destruct text as [[|c' t]|]; done.
Qed.

Lemma generate_malformed (env : geminiService.Env) (p : string) (i : option string)
    (text : string) (e : exn) :
  App.opt_truthy (geminiService.API_KEY env) = true →
  geminiService.manifestResponse env = Ok (Some text) →
  App.str_truthy text = true →
  JSON_parse text = Throw e →
  geminiService.generateProjectManifest JSON_parse env p i = Throw e.
Proof.
  unfold geminiService.generateProjectManifest.
  destruct (geminiService.API_KEY env) as [[|c k]|]; try done.
  intros _ -> Ht H. destruct text as [|c' t]; [done|].
  cbn [mbind res_bind]. by rewrite H.
Qed.

(** Once the document parses the call succeeds: what goes wrong while the
    picture is made is caught. *)
Lemma generate_parsed (env : geminiService.Env) (p : string) (i : option string)
    (text : string) (m : value) :
  App.opt_truthy (geminiService.API_KEY env) = true →
  geminiService.manifestResponse env = Ok (Some text) →
  App.str_truthy text = true →
  JSON_parse text = Ok m →
  is_ok (geminiService.generateProjectManifest JSON_parse env p i) = true.
Proof.
  unfold geminiService.generateProjectManifest.
  destruct (geminiService.API_KEY env) as [[|c k]|]; try done.
  intros _ -> Ht H. destruct text as [|c' t]; [done|].
  cbn [mbind res_bind]. rewrite H. cbn [mbind res_bind].
  by destruct (geminiService.visualize env m).
Qed.

(** C9: when a request is sent and the generation call fails, whatever the
    failure, the handler ends with the one generic message in [error], the
    manifest that was shown before the request, and the loading flag
    cleared; while the call is in flight the manifest is untouched as well. *)
Theorem generation_failure (env : geminiService.Env) (st : App.State) (e : exn) :
  App.nothingToSend st = false →
  App.request JSON_parse env st = Throw e →
  App.error (App.handleGenerate JSON_parse env st) = Some App.genericError
  ∧ App.manifest (App.handleGenerate JSON_parse env st) = App.manifest st
  ∧ App.loading (App.handleGenerate JSON_parse env st) = false
  ∧ App.manifest (App.pending st) = App.manifest st
  ∧ App.loading (App.pending st) = true
  ∧ App.error (App.pending st) = None.
Proof.
  intros Hsend Hfail. unfold App.handleGenerate.
  rewrite Hsend, Hfail. done.
Qed.

End Generation.

Lemma generation_failure_witness :
  App.error
    (App.handleGenerate (λ _, Throw SyntaxError)
       {| geminiService.API_KEY := None;
          geminiService.manifestResponse := Ok (Some "{}");
          geminiService.imageResponse := Ok None |}
       {| App.prompt := "a yoga app"; App.loading := false; App.error := None;
          App.manifest := obj [("specVersion", JStr "7.0")];
          App.isListening := false; App.selectedImage := None |})
    = Some App.genericError
  ∧ App.manifest
      (App.handleGenerate (λ _, Throw SyntaxError)
         {| geminiService.API_KEY := None;
            geminiService.manifestResponse := Ok (Some "{}");
            geminiService.imageResponse := Ok None |}
         {| App.prompt := "a yoga app"; App.loading := false; App.error := None;
            App.manifest := obj [("specVersion", JStr "7.0")];
            App.isListening := false; App.selectedImage := None |})
    = obj [("specVersion", JStr "7.0")].
Proof.
  pose proof (generation_failure (λ _, Throw SyntaxError)
    {| geminiService.API_KEY := None;
       geminiService.manifestResponse := Ok (Some "{}");
       geminiService.imageResponse := Ok None |}
    {| App.prompt := "a yoga app"; App.loading := false; App.error := None;
       App.manifest := obj [("specVersion", JStr "7.0")];
       App.isListening := false; App.selectedImage := None |}
    (Error "API Key is missing") eq_refl eq_refl) as (H1 & H2 & _).
  split; [exact H1 | exact H2].
Defined.

(** ** More on the theme *)

Lemma or_else_idem (a d : value) : truthy d = true → a ||| d ||| d = a ||| d.
Proof. intros Hd. apply or_else_l. by apply truthy_or_else. Qed.

Lemma or_else_same (a b : value) : a ||| a ||| b = a ||| b.
Proof. unfold or_else. destruct (truthy a) eqn:Ha; by rewrite ?Ha. Qed.

Lemma spread_spread (d raw : value) :
  spread d (JObj (spread d raw)) = spread d raw.
Proof.
  unfold spread; cbn [ownProps].
  by rewrite <- (assoc_L (∪)), (idemp_L (∪)).
Qed.

(** X1: resolving is idempotent: a theme that [safeDs] produced goes
    through [safeDs] unchanged. *)
Theorem safeDs_idempotent (ds : value) : safeDs (safeDs ds) = safeDs ds.
Proof.
  unfold safeDs at 1.
  rewrite !optProp_prop, safeDs_colors, safeDs_typography, safeDs_spacing,
    safeDs_animation, safeDs_shadows, safeDs_borderRadius.
  rewrite !prop_obj_cons; cbn [String.eqb Ascii.eqb Bool.eqb].
  rewrite !or_else_idem by done. rewrite !spread_spread.
  unfold safeDs; cbn [ownProps]. f_equal.
  apply map_eq; intros i.
  rewrite !lookup_insert. repeat case_decide; done.
Qed.

(** X2: the modes differ in the palette alone, and not symmetrically.
    Without a (truthy) dark palette dark mode resolves exactly as light mode
    does; without a light palette light mode falls to the emergency palette
    even when a dark palette is given. *)
Theorem mode_asymmetry (ds : value) :
  ∃ l d, resolve ds light = Ok l ∧ resolve ds dark = Ok d
    ∧ safe d = safe l ∧ comps d = comps l
    ∧ borderRadius d = borderRadius l ∧ shadows d = shadows l
    ∧ (truthy (prop (prop (safe l) "colors") "dark") = false → d = l)
    ∧ (truthy (prop (prop (safe l) "colors") "light") = false →
         colors l = emergencyPalette).
Proof.
  do 2 eexists. split; [apply resolve_ok|]. split; [apply resolve_ok|].
  cbn [safe comps borderRadius shadows colors]. rewrite safeDs_colors.
  repeat split.
  - intros H. replace (palette ds dark) with (palette ds light); [done|].
    unfold palette; cbv zeta; cbn [mode_key].
    by rewrite (or_else_r _ _ H), or_else_same.
  - intros H. unfold palette; cbv zeta; cbn [mode_key].
    by rewrite !(or_else_r _ _ H).
Qed.

Lemma mode_asymmetry_witness :
  resolve (obj [("colors", obj [("light", obj [("primary", JStr "#FF0000")])])]) dark
  = resolve (obj [("colors", obj [("light", obj [("primary", JStr "#FF0000")])])]) light
  ∧ (colors <$> match resolve (obj [("colors",
                       obj [("dark", obj [("primary", JStr "#00FF00")])])]) light with
                | Ok sc => Some sc
                | Throw _ => None
                end) = Some emergencyPalette.
Proof.
  split.
  - destruct (mode_asymmetry
      (obj [("colors", obj [("light", obj [("primary", JStr "#FF0000")])])]))
      as (l & d & Hl & Hd & _ & _ & _ & _ & H & _).
    rewrite Hl, Hd. f_equal. apply H.
    rewrite resolve_ok in Hl. injection Hl as <-. reflexivity.
  - destruct (mode_asymmetry
      (obj [("colors", obj [("dark", obj [("primary", JStr "#00FF00")])])]))
      as (l & d & Hl & _ & _ & _ & _ & _ & _ & H).
    rewrite Hl. cbn. f_equal. apply H.
    rewrite resolve_ok in Hl. injection Hl as <-. reflexivity.
Defined.

Section BadgeFacts.

Variable Number_toString : float → string.


End BadgeFacts.


(** ** The spacing sample *)

Lemma omap_arrayIndex_none (ks : list string) :
  Forall (λ k, is_index k = false) ks → omap arrayIndex ks = [].
Proof.
  induction 1 as [|k ks Hk _ IH]; [done|].
  cbn. unfold is_index in Hk. destruct (arrayIndex k); [done|]. exact IH.
Qed.

Lemma filter_not_index (ks : list string) :
  Forall (λ k, is_index k = false) ks →
  List.filter (λ k, negb (is_index k)) ks = ks.
Proof.
  induction 1 as [|k ks Hk _ IH]; [done|].
  cbn. rewrite Hk. cbn. by rewrite IH.
Qed.

Lemma Forall_list_filter {A} (P : A → Prop) (f : A → bool) (l : list A) :
  Forall P l → Forall P (List.filter f l).
Proof.
  induction 1 as [|x l Hx _ IH]; [constructor|].
  cbn. destruct (f x); [by constructor | done].
Qed.

Lemma spreadKeys_no_index (rawKeys : list string) :
  Forall (λ k, is_index k = false) rawKeys →
  take 4 (spreadKeys spacingScaleKeys rawKeys) = ["xs"; "sm"; "md"; "lg"].
Proof.
  intros H. unfold spreadKeys. cbv zeta.
  set (rest := List.filter _ rawKeys).
  assert (Hall : Forall (λ k, is_index k = false) (spacingScaleKeys ++ rest)%list).
  { apply Forall_app. split; [by repeat constructor|].
    by apply Forall_list_filter. }
  by rewrite (omap_arrayIndex_none _ Hall), (filter_not_index _ Hall).
Qed.

(** X4: when the raw spacing scale has no array-index key, the spacing
    sample shows xs, sm, md and lg, in that order and with their resolved
    values, whatever other keys raw adds and in whatever order. *)
Theorem spacing_sample (ds : value) (mode : Mode) (rawKeys : list string) :
  rawKeys ≡ₚ elements (dom (ownProps (ds?."spacing"?."scale"))) →
  (∀ k, hasOwn (ds?."spacing"?."scale") k → is_index k = false) →
  ∃ sc, resolve ds mode = Ok sc
    ∧ spacingSample rawKeys sc =
        Ok [("xs", prop (at_path (safe sc) ["spacing"; "scale"]) "xs");
            ("sm", prop (at_path (safe sc) ["spacing"; "scale"]) "sm");
            ("md", prop (at_path (safe sc) ["spacing"; "scale"]) "md");
            ("lg", prop (at_path (safe sc) ["spacing"; "scale"]) "lg")].
Proof.
  intros Hperm Hidx.
  assert (H : Forall (λ k, is_index k = false) rawKeys).
  { apply Forall_forall. intros k Hk. apply Hidx.
    rewrite Hperm in Hk. apply elem_of_elements, elem_of_dom in Hk. exact Hk. }
  eexists. split; [apply resolve_ok|]. cbn [safe].
  unfold spacingSample; cbn [safe].
  rewrite getProp_safeDs, at_path_2, safeDs_spacing.
  cbn [mbind res_bind mret res_ret].
  rewrite getProp_obj_lit. cbn [mbind res_bind mret res_ret].
  rewrite !prop_obj_cons; cbn [String.eqb Ascii.eqb Bool.eqb nullish].
  rewrite <- fmap_take, (spreadKeys_no_index _ H). done.
Qed.

Lemma spacing_sample_witness :
  ∃ sc, resolve (obj [("spacing", obj [("scale", obj [("md", JStr "20px")])])]) light
          = Ok sc
    ∧ spacingSample ["md"] sc =
        Ok [("xs", JStr "4px"); ("sm", JStr "8px"); ("md", JStr "20px");
            ("lg", JStr "24px")].
Proof.
  destruct (spacing_sample
              (obj [("spacing", obj [("scale", obj [("md", JStr "20px")])])])
              light ["md"]) as (sc & Hsc & H).
  - vm_compute. reflexivity.
  - intros k [v Hk].
    change (({["md" := JStr "20px"]} : gmap string value) !! k = Some v) in Hk.
    apply lookup_singleton_Some in Hk as [<- _]. reflexivity.
  - exists sc. split; [exact Hsc|]. rewrite H.
    rewrite resolve_ok in Hsc. injection Hsc as <-. reflexivity.
Defined.

(** With index keys the sample changes: a raw scale given as an array of
    four values shows the four indices, and none of the tokens. *)
Example spacing_sample_array :
  (sc ← resolve (obj [("spacing",
             obj [("scale", JArr [JStr "1px"; JStr "2px"; JStr "3px"; JStr "4px"])])])
          light;
   spacingSample ["0"; "1"; "2"; "3"] sc)
  = Ok [("0", JStr "1px"); ("1", JStr "2px"); ("2", JStr "3px"); ("3", JStr "4px")].
Proof. vm_compute. reflexivity. Qed.

(** ** Reading the derived styles *)


(** ** The blueprint tabs *)




(** X6: the three lists of the blueprint (landing structure, dashboard
    modules, auth providers) are empty when the manifest gives nothing for
    them, and the component throws a [TypeError] when it gives a truthy value
    that is not an array. *)
Theorem lists_need_arrays (landing app auth : value) :
  nullish landing = false → nullish app = false → nullish auth = false →
  (truthy (prop landing "structure") = false → BlueprintView.landingCards landing = Ok [])
  ∧ (truthy (prop landing "structure") = true →
     (∀ xs, prop landing "structure" ≠ JArr xs) →
     BlueprintView.landingCards landing = Throw TypeError)
  ∧ (truthy (prop (prop app "dashboard") "modules") = false →
     BlueprintView.moduleCards app = Ok [])
  ∧ (truthy (prop (prop app "dashboard") "modules") = true →
     (∀ xs, prop (prop app "dashboard") "modules" ≠ JArr xs) →
     BlueprintView.moduleCards app = Throw TypeError)
  ∧ (truthy (prop auth "providers") = false → BlueprintView.providerItems auth = Ok [])
  ∧ (truthy (prop auth "providers") = true →
     (∀ xs, prop auth "providers" ≠ JArr xs) →
     BlueprintView.providerItems auth = Throw TypeError).
Proof.
  intros Hl Ha Hu.
  unfold BlueprintView.landingCards, BlueprintView.moduleCards,
    BlueprintView.providerItems.
  rewrite (getProp_ok _ _ Hl), (getProp_ok _ _ Ha), (getProp_ok _ _ Hu).
  cbn [mbind res_bind]. rewrite optProp_prop, !or_else_m_ok.
  cbn [mbind res_bind].
  repeat split; intros H;
    try (by rewrite (or_else_r _ _ H));
    intros Hne; rewrite (or_else_l _ _ H);
    match goal with
    | |- BlueprintView.js_map _ ?v = _ => destruct v; try done; by destruct (Hne xs)
    end.
Qed.

Lemma lists_need_arrays_witness :
  BlueprintView.landingCards (obj [("structure", JStr "hero")]) = Throw TypeError
  ∧ BlueprintView.providerItems (obj []) = Ok [].
Proof.
  destruct (lists_need_arrays (obj [("structure", JStr "hero")]) (obj []) (obj [])
              eq_refl eq_refl eq_refl) as (_ & H1 & _ & _ & H2 & _).
  split; [apply H1; [reflexivity | discriminate] | apply H2; reflexivity].
Defined.




(** X8: the label of a landing card has the length of the section id and
    no underscore in it, and an id without underscores is its own label. *)
Theorem replace_underscores_spec (s : string) :
  String.length (BlueprintView.replace_underscores s) = String.length s
  ∧ Forall (λ c, c ≠ "_"%char)
      (list_ascii_of_string (BlueprintView.replace_underscores s))
  ∧ (Forall (λ c, c ≠ "_"%char) (list_ascii_of_string s) →
     BlueprintView.replace_underscores s = s).
Proof.
  induction s as [|c s (IH1 & IH2 & IH3)]; [by repeat split; try constructor|].
  cbn. split; [by rewrite IH1|]. split.
  - constructor; [|done]. by destruct (Ascii.eqb_spec c "_").
  - intros H. apply Forall_cons in H as [Hc Hs].
    rewrite (IH3 Hs). by destruct (Ascii.eqb_spec c "_").
Qed.





(** X11: the two layers of defaults do not show the same text.  A manifest
    without an [seo] section shows the default's "N/A" for the indexing, one
    whose [seo] section lacks the field shows "Allow All"; in the same way the
    viral loop reads "N/A" without a [growth] section and "Not specified" with
    a [growth] section that lacks the mechanism. *)
Theorem layered_labels (manifest : value) :
  nullish manifest = false →
  ∃ s, ProjectBlueprint.sections manifest = Ok s
    ∧ (truthy (prop manifest "seo") = false →
         BlueprintView.indexingLabel (ProjectBlueprint.seo s) = Ok (JStr "N/A"))
    ∧ (truthy (prop manifest "seo") = true →
       truthy (prop (prop (prop manifest "seo") "indexing") "robotsTxt") = false →
         BlueprintView.indexingLabel (ProjectBlueprint.seo s) = Ok (JStr "Allow All"))
    ∧ (truthy (prop manifest "growth") = false →
         BlueprintView.viralLoopLabel (ProjectBlueprint.growth s) = Ok (JStr "N/A"))
    ∧ (truthy (prop manifest "growth") = true →
       truthy (prop (prop (prop manifest "growth") "viralLoop") "mechanism") = false →
         BlueprintView.viralLoopLabel (ProjectBlueprint.growth s)
           = Ok (JStr "Not specified")).
Proof.
  intros H. rewrite sections_ok by done. eexists. split; [reflexivity|].
  cbn [ProjectBlueprint.seo ProjectBlueprint.growth].
  unfold BlueprintView.indexingLabel, BlueprintView.viralLoopLabel.
  repeat split.
  - intros Hs. by rewrite (or_else_r _ _ Hs).
  - intros Hs Hr. rewrite (or_else_l _ _ Hs), (getProp_truthy _ _ Hs).
    cbn [mbind res_bind]. by rewrite optProp_prop, or_else_m_ok, (or_else_r _ _ Hr).
  - intros Hs. by rewrite (or_else_r _ _ Hs).
  - intros Hs Hr. rewrite (or_else_l _ _ Hs), (getProp_truthy _ _ Hs).
    cbn [mbind res_bind]. by rewrite optProp_prop, or_else_m_ok, (or_else_r _ _ Hr).
Qed.

Lemma layered_labels_witness :
  ∃ s1 s2,
    ProjectBlueprint.sections (obj []) = Ok s1
    ∧ BlueprintView.indexingLabel (ProjectBlueprint.seo s1) = Ok (JStr "N/A")
    ∧ ProjectBlueprint.sections (obj [("seo", obj [])]) = Ok s2
    ∧ BlueprintView.indexingLabel (ProjectBlueprint.seo s2) = Ok (JStr "Allow All").
Proof.
  destruct (layered_labels (obj []) eq_refl) as (s1 & Hs1 & H1 & _).
  destruct (layered_labels (obj [("seo", obj [])]) eq_refl) as (s2 & Hs2 & _ & H2 & _).
  exists s1, s2. split; [exact Hs1|]. split; [apply H1; reflexivity|].
  split; [exact Hs2|]. apply H2; reflexivity.
Defined.

Lemma copyRun_snoc (evs : list BlueprintView.CopyEvent) (ev : BlueprintView.CopyEvent) :
  BlueprintView.copyRun (evs ++ [ev])
  = BlueprintView.copyStep (BlueprintView.copyRun evs) ev.
Proof. unfold BlueprintView.copyRun. by rewrite foldl_app. Qed.

(** X12: the copy indicator is on only while a timer is still to fire, so it
    always goes off once the timers have run out; and a second click does not
    keep it on for its own two seconds: the timer of the first click hides it
    while the timer of the second is still pending. *)
Theorem copy_indicator (evs : list BlueprintView.CopyEvent) :
  (BlueprintView.copied (BlueprintView.copyRun evs) = true →
     0 < BlueprintView.timers (BlueprintView.copyRun evs))
  ∧ BlueprintView.copied
      (BlueprintView.copyRun
         (evs ++ [BlueprintView.Click; BlueprintView.Click; BlueprintView.TimerFires]))
    = false
  ∧ 0 < BlueprintView.timers
      (BlueprintView.copyRun
         (evs ++ [BlueprintView.Click; BlueprintView.Click; BlueprintView.TimerFires])).
Proof.
  split.
  - induction evs as [|ev evs IH] using rev_ind; [done|].
    rewrite copyRun_snoc. destruct ev; cbn; [lia|].
    destruct (BlueprintView.timers (BlueprintView.copyRun evs)) eqn:Ht; [|done].
    intros Hc. specialize (IH Hc). lia.
  - unfold BlueprintView.copyRun. rewrite foldl_app. cbn. split; [done | lia].
Qed.

Lemma copy_indicator_witness :
  BlueprintView.copied
    (BlueprintView.copyRun [BlueprintView.Click; BlueprintView.TimerFires]) = false
  ∧ BlueprintView.copied (BlueprintView.copyRun [BlueprintView.Click]) = true.
Proof.
  split; [|reflexivity].
  destruct (BlueprintView.copied
              (BlueprintView.copyRun [BlueprintView.Click; BlueprintView.TimerFires]))
    eqn:H; [|reflexivity].
  pose proof (proj1 (copy_indicator [BlueprintView.Click; BlueprintView.TimerFires]) H)
    as Hlt.
  cbn in Hlt. lia.
Defined.

Lemma styleguideProps_eq (manifest : value) :
  nullish manifest = false →
  ProjectBlueprint.styleguideProps manifest =
    Ok (JObj (<["projectName" :=
                  prop (prop manifest "project" ||| ProjectBlueprint.defaultProject) "name"]>
                (ownProps (prop manifest "designSystem"
                           ||| ProjectBlueprint.defaultDesignSystem)))).
Proof.
  intros Hm. unfold ProjectBlueprint.styleguideProps.
  rewrite sections_ok by done.
  cbn [mbind res_bind mret res_ret ProjectBlueprint.project ProjectBlueprint.designSystem].
  by rewrite getProp_or_else.
Qed.

(** X13: the heading of the styleguide is the project's name, and "Project"
    when the project has none: the blueprint overwrites [projectName] when it
    hands the design system over, so a [projectName] of the design system's
    own is never shown, while every other property is handed over as it is. *)
Theorem heading_is_project_name (manifest : value) (mode : Mode) :
  nullish manifest = false →
  ∃ s ds sc,
    ProjectBlueprint.sections manifest = Ok s
    ∧ ProjectBlueprint.styleguideProps manifest = Ok ds
    ∧ resolve ds mode = Ok sc
    ∧ headerTitle sc = Ok (prop (ProjectBlueprint.project s) "name" ||| JStr "Project")
    ∧ (∀ k, k ≠ "projectName" →
         ownProps ds !! k = ownProps (ProjectBlueprint.designSystem s) !! k).
Proof.
  intros H. rewrite sections_ok, styleguideProps_eq by done.
  do 3 eexists. split; [reflexivity|]. split; [reflexivity|].
  split; [apply resolve_ok|].
  cbn [ProjectBlueprint.project ProjectBlueprint.designSystem safe].
  unfold headerTitle; cbn [safe]. split.
  - rewrite getProp_safeDs, or_else_m_ok. f_equal. f_equal.
    rewrite safeDs_other.
    + rewrite optProp_prop. unfold prop at 1. cbn [ownProps].
      by rewrite lookup_insert_eq.
    + rewrite !not_elem_of_cons. repeat split; try done. apply not_elem_of_nil.
  - intros k Hk. cbn [ownProps]. by rewrite lookup_insert_ne.
Qed.

Lemma heading_is_project_name_witness :
  ∃ ds sc,
    ProjectBlueprint.styleguideProps
      (obj [("project", obj [("name", JStr "Acme")]);
            ("designSystem", obj [("projectName", JStr "Initial State")])]) = Ok ds
    ∧ resolve ds light = Ok sc
    ∧ headerTitle sc = Ok (JStr "Acme").
Proof.
  destruct (heading_is_project_name
              (obj [("project", obj [("name", JStr "Acme")]);
                    ("designSystem", obj [("projectName", JStr "Initial State")])])
              light eq_refl) as (s & ds & sc & Hs & Hds & Hsc & Ht & _).
  exists ds, sc. split; [exact Hds|]. split; [exact Hsc|].
  rewrite Ht. rewrite sections_ok in Hs by reflexivity. injection Hs as <-.
  reflexivity.
Defined.

(** ** The request form *)









(** X15: the handler touches the loading flag, the error and the manifest
    only: the prompt, the selected image and the listening flag stay.  When
    a request is sent it always ends with the loading flag cleared, and when
    the call succeeds the manifest is the one the call returned and an error
    shown before is gone. *)
Theorem generation_outcome (JSON_parse : string → res value)
    (env : geminiService.Env) (st : App.State) :
  App.prompt (App.handleGenerate JSON_parse env st) = App.prompt st
  ∧ App.selectedImage (App.handleGenerate JSON_parse env st) = App.selectedImage st
  ∧ App.isListening (App.handleGenerate JSON_parse env st) = App.isListening st
  ∧ (App.nothingToSend st = false →
       App.loading (App.handleGenerate JSON_parse env st) = false
       ∧ ∀ data, App.request JSON_parse env st = Ok data →
           App.manifest (App.handleGenerate JSON_parse env st) = data
           ∧ App.error (App.handleGenerate JSON_parse env st) = None).
Proof.
  unfold App.handleGenerate.
  destruct (App.nothingToSend st) eqn:Hs.
  - repeat split; done.
  - unfold App.settle. destruct (App.request JSON_parse env st) as [d|e] eqn:Hr.
    + repeat split; try done; by simplify_eq.
    + repeat split; done.
Qed.

Lemma generation_outcome_witness :
  App.manifest
    (App.handleGenerate (λ _, Ok (obj [("specVersion", JStr "7.0")]))
       {| geminiService.API_KEY := Some "k";
          geminiService.manifestResponse := Ok (Some "{...}");
          geminiService.imageResponse := Throw (Error "quota") |}
       {| App.prompt := "a yoga app"; App.loading := false; App.error := Some "old";
          App.manifest := JNull; App.isListening := false; App.selectedImage := None |})
  = obj [("specVersion", JStr "7.0")].
Proof.
  destruct (generation_outcome (λ _, Ok (obj [("specVersion", JStr "7.0")]))
       {| geminiService.API_KEY := Some "k";
          geminiService.manifestResponse := Ok (Some "{...}");
          geminiService.imageResponse := Throw (Error "quota") |}
       {| App.prompt := "a yoga app"; App.loading := false; App.error := Some "old";
          App.manifest := JNull; App.isListening := false; App.selectedImage := None |})
    as (_ & _ & _ & H).
  destruct (H eq_refl) as [_ H'].
  apply (H' (obj [("specVersion", JStr "7.0")])). reflexivity.
Defined.

Section DownloadFacts.

Variable Number_toString : float → string.

(** X16: without a manifest the download does nothing.  With one, the file
    is named after the project id, [project] standing in for an id that is
    absent or empty; and a manifest without a [project] section, which the
    blueprint displays with its defaults, makes the download throw a
    [TypeError]. *)
Theorem download_name (st : App.State) :
  (truthy (App.manifest st) = false →
     AppHandlers.handleDownload Number_toString st = Ok None)
  ∧ (truthy (App.manifest st) = true →
     nullish (prop (App.manifest st) "project") = true →
       AppHandlers.handleDownload Number_toString st = Throw TypeError
       ∧ is_ok (ProjectBlueprint.sections (App.manifest st)) = true)
  ∧ (truthy (App.manifest st) = true →
     nullish (prop (App.manifest st) "project") = false →
       (truthy (prop (prop (App.manifest st) "project") "id") = false →
          AppHandlers.handleDownload Number_toString st
            = Ok (Some "project-manifest.json"))
       ∧ (∀ s, prop (prop (App.manifest st) "project") "id" = JStr s → s ≠ "" →
            AppHandlers.handleDownload Number_toString st
              = Ok (Some (s +:+ "-manifest.json")))).
Proof.
  unfold AppHandlers.handleDownload. split; [by intros ->|]. split.
  - intros Ht Hp. rewrite Ht, (getProp_truthy _ _ Ht). cbn [negb mbind res_bind].
    split.
    + unfold getProp at 1. by rewrite Hp.
    + rewrite sections_ok; [done | by apply truthy_not_nullish].
  - intros Ht Hp. rewrite Ht, (getProp_truthy _ _ Ht). cbn [negb mbind res_bind].
    rewrite (getProp_ok _ _ Hp), or_else_m_ok. split.
    + intros Hi. by rewrite (or_else_r _ _ Hi).
    + intros s Hs Hne. rewrite Hs.
      assert (Hs' : truthy (JStr s) = true) by (cbn; by destruct (String.eqb_spec s "")).
      by rewrite (or_else_l _ _ Hs').
Qed.

End DownloadFacts.

Lemma download_name_witness :
  AppHandlers.handleDownload (λ _, "0")
    {| App.prompt := ""; App.loading := false; App.error := None;
       App.manifest := obj [("project", obj [("id", JStr "drone-fleet")])];
       App.isListening := false; App.selectedImage := None |}
  = Ok (Some "drone-fleet-manifest.json")
  ∧ AppHandlers.handleDownload (λ _, "0")
      {| App.prompt := ""; App.loading := false; App.error := None;
         App.manifest := obj [("specVersion", JStr "7.0")];
         App.isListening := false; App.selectedImage := None |}
    = Throw TypeError.
Proof.
  split.
  - apply (proj2 (proj2 (proj2 (download_name (λ _, "0")
      {| App.prompt := ""; App.loading := false; App.error := None;
         App.manifest := obj [("project", obj [("id", JStr "drone-fleet")])];
         App.isListening := false; App.selectedImage := None |})) eq_refl eq_refl)
      "drone-fleet"); [reflexivity | discriminate].
  - apply (proj1 (proj2 (download_name (λ _, "0")
      {| App.prompt := ""; App.loading := false; App.error := None;
         App.manifest := obj [("specVersion", JStr "7.0")];
         App.isListening := false; App.selectedImage := None |})) eq_refl eq_refl).
Defined.

(** ** Dictation *)

Lemma append_assoc3 (a b c : string) : (a +:+ b) +:+ c = a +:+ (b +:+ c).
Proof.
  induction a as [|x a IH]; [done|].
  change (String x ((a +:+ b) +:+ c) = String x (a +:+ b +:+ c)). by f_equal.
Qed.

Lemma concat_joined (p t : string) (l : list string) :
  String.concat " " ((p +:+ " " +:+ t) :: l) = String.concat " " (p :: t :: l).
Proof.
  destruct l as [|u l]; [done|].
  change ((p +:+ " " +:+ t) +:+ " " +:+ String.concat " " (u :: l)
          = p +:+ " " +:+ t +:+ " " +:+ String.concat " " (u :: l)).
  by rewrite !append_assoc3.
Qed.

(** From a non-empty prompt every transcript is appended after one space. *)
Lemma dictation_nonempty (st : App.State) (evs : list AppHandlers.RecognitionEvent) :
  App.prompt st ≠ "" →
  App.prompt (foldl AppHandlers.recognitionStep st evs) =
    String.concat " "
      (App.prompt st ::
       omap (λ ev, match ev with AppHandlers.onresult t => Some t | _ => None end) evs).
Proof.
  revert st. induction evs as [|ev evs IH]; intros st Hp; [done|].
  cbn [foldl]. destruct ev as [| | |t]; cbn [omap]; try (rewrite IH; done).
  rewrite IH.
  - cbn [AppHandlers.recognitionStep AppHandlers.setPrompt App.prompt option_bind
      mbind].
    assert (Ht : App.str_truthy (App.prompt st) = true).
    { unfold App.str_truthy. by destruct (String.eqb_spec (App.prompt st) ""). }
    rewrite Ht. cbn. apply concat_joined.
  - cbn. assert (Ht : App.str_truthy (App.prompt st) = true).
    { unfold App.str_truthy. by destruct (String.eqb_spec (App.prompt st) ""). }
    rewrite Ht. by destruct (App.prompt st).
Qed.

(** X17: what is dictated is appended to the prompt, each transcript after
    one space: starting from a non-empty prompt, the prompt after any run of
    recognition events is the old prompt and the transcripts of the run
    joined by single spaces; starting from an empty prompt, with a non-empty
    first transcript, it is the transcripts joined by single spaces.  The
    events change nothing but the prompt and the listening flag. *)
Theorem dictation (st : App.State) (evs : list AppHandlers.RecognitionEvent) :
  (App.prompt st ≠ "" →
     App.prompt (foldl AppHandlers.recognitionStep st evs) =
       String.concat " "
         (App.prompt st ::
          omap (λ ev, match ev with AppHandlers.onresult t => Some t | _ => None end)
            evs))
  ∧ (App.prompt st = "" →
     ∀ t rest,
       omap (λ ev, match ev with AppHandlers.onresult t => Some t | _ => None end) evs
         = t :: rest →
       t ≠ "" →
       App.prompt (foldl AppHandlers.recognitionStep st evs)
         = String.concat " " (t :: rest))
  ∧ App.manifest (foldl AppHandlers.recognitionStep st evs) = App.manifest st
  ∧ App.error (foldl AppHandlers.recognitionStep st evs) = App.error st
  ∧ App.loading (foldl AppHandlers.recognitionStep st evs) = App.loading st
  ∧ App.selectedImage (foldl AppHandlers.recognitionStep st evs)
    = App.selectedImage st.
Proof.
  split; [apply dictation_nonempty|]. split.
  - revert st. induction evs as [|ev evs IH]; intros st Hp t rest Hts Ht; [done|].
    cbn [foldl]. destruct ev as [| | |t']; cbn [omap] in Hts;
      try (by apply IH).
    cbn in Hts. injection Hts as -> <-.
    rewrite dictation_nonempty.
    + cbn. by rewrite Hp.
    + cbn. by rewrite Hp.
  - revert st. induction evs as [|ev evs IH]; intros st; [done|].
    cbn [foldl]. destruct (IH (AppHandlers.recognitionStep st ev)) as (-> & -> & -> & ->).
    by destruct ev.
Qed.

Lemma dictation_witness :
  App.prompt
    (foldl AppHandlers.recognitionStep
       {| App.prompt := "Plateforme"; App.loading := false; App.error := None;
          App.manifest := JNull; App.isListening := false; App.selectedImage := None |}
       [AppHandlers.onstart; AppHandlers.onresult "de drones"; AppHandlers.onend])
  = "Plateforme de drones".
Proof.
  rewrite (proj1 (dictation
       {| App.prompt := "Plateforme"; App.loading := false; App.error := None;
          App.manifest := JNull; App.isListening := false; App.selectedImage := None |}
       [AppHandlers.onstart; AppHandlers.onresult "de drones"; AppHandlers.onend]));
    [reflexivity | discriminate].
Defined.

(** ** The reference image *)

Lemma append_empty_r (s : string) : s +:+ "" = s.
Proof.
  induction s as [|c s IH]; [done|].
  change (String c (s +:+ "") = String c s). by f_equal.
Qed.

Lemma split_on_not_nil (sep : ascii) (s : string) : geminiRequest.split_on sep s ≠ [].
Proof.
  destruct s as [|c s]; [done|]. cbn [geminiRequest.split_on].
  destruct (Ascii.eqb c sep); [done|]. by destruct (geminiRequest.split_on sep s).
Qed.

Lemma split_on_app (sep : ascii) (a b : string) :
  Forall (λ c, c ≠ sep) (list_ascii_of_string a) →
  geminiRequest.split_on sep (a +:+ b) =
    match geminiRequest.split_on sep b with
    | x :: xs => (a +:+ x) :: xs
    | [] => [a]
    end.
Proof.
  induction a as [|c a IH]; intros H.
  - change ("" +:+ b) with b. destruct (geminiRequest.split_on sep b) eqn:Hb; [|done].
    by apply split_on_not_nil in Hb.
  - cbn in H. apply Forall_cons in H as [Hc Ha].
    change (String c a +:+ b) with (String c (a +:+ b)).
    cbn [geminiRequest.split_on]. destruct (Ascii.eqb_spec c sep); [done|].
    rewrite (IH Ha). by destruct (geminiRequest.split_on sep b).
Qed.

Lemma split_on_none (sep : ascii) (s : string) :
  Forall (λ c, c ≠ sep) (list_ascii_of_string s) →
  geminiRequest.split_on sep s = [s].
Proof.
  induction s as [|c s IH]; intros H; [done|].
  cbn in H. apply Forall_cons in H as [Hc Hs].
  cbn. destruct (Ascii.eqb_spec c sep); [done|]. by rewrite (IH Hs).
Qed.

(** X18: the payload sent for a reference image is what follows the first
    comma of the data URL, up to the next comma: a data URL built as the
    service builds them, [data:<type>;base64,<payload>], gives back its
    payload; a string without a comma, or with nothing after its comma, is
    sent whole. *)
Theorem clean_base64 (mimeType data : string) :
  Forall (λ c, c ≠ ","%char) (list_ascii_of_string mimeType) →
  Forall (λ c, c ≠ ","%char) (list_ascii_of_string data) →
  (data ≠ "" →
     ∀ uri, geminiService.dataUri
              {| geminiService.inlineData := Some (mimeType, data) |} = Some uri →
            geminiRequest.cleanBase64 uri = data)
  ∧ (data ≠ "" → ∀ more,
       geminiRequest.cleanBase64 (mimeType +:+ "," +:+ data +:+ "," +:+ more) = data)
  ∧ geminiRequest.cleanBase64 data = data
  ∧ geminiRequest.cleanBase64 (mimeType +:+ ",") = mimeType +:+ ",".
Proof.
  intros Hm Hd. unfold geminiRequest.cleanBase64. repeat split.
  - intros Hne uri [= <-].
    rewrite (split_on_app _ "data:") by (by repeat constructor).
    rewrite (split_on_app _ mimeType) by done.
    change (";base64," +:+ data) with (";base64" +:+ String "," data).
    rewrite (split_on_app _ ";base64") by (by repeat constructor).
    cbn. rewrite (split_on_none _ data) by done. cbn.
    by destruct (String.eqb_spec data "").
  - intros Hne more.
    change (mimeType +:+ "," +:+ data +:+ "," +:+ more)
      with (mimeType +:+ String "," (data +:+ String "," more)).
    rewrite (split_on_app _ mimeType) by done.
    cbn [geminiRequest.split_on Ascii.eqb Bool.eqb].
    rewrite (split_on_app _ data) by done.
    cbn [geminiRequest.split_on Ascii.eqb Bool.eqb lookup list_lookup].
    rewrite append_empty_r. by destruct (String.eqb_spec data "").
  - by rewrite (split_on_none _ data).
  - rewrite (split_on_app _ mimeType) by done. done.
Qed.

Lemma clean_base64_witness :
  geminiRequest.cleanBase64 "data:image/png;base64,iVBORw0KGgo=" = "iVBORw0KGgo=".
Proof.
  destruct (clean_base64 "image/png" "iVBORw0KGgo=") as (H & _).
  - by repeat constructor.
  - by repeat constructor.
  - apply H; [discriminate | reflexivity].
Defined.

(** ** The generation call *)

Section GenerationFacts.

Variable JSON_parse : string → res value.

Lemma generate_eq (env : geminiService.Env) (p : string) (i : option string)
    (text : string) (m : value) :
  App.opt_truthy (geminiService.API_KEY env) = true →
  geminiService.manifestResponse env = Ok (Some text) →
  text ≠ "" →
  JSON_parse text = Ok m →
  geminiService.generateProjectManifest JSON_parse env p i =
    Ok (match geminiService.visualize env m with
        | Ok m' => m'
        | Throw _ => m
        end).
Proof.
  unfold geminiService.generateProjectManifest.
  destruct (geminiService.API_KEY env) as [[|c k]|]; try done.
  intros _ -> Ht H. destruct text as [|c' t]; [done|].
  cbn [mbind res_bind]. rewrite H. cbn [mbind res_bind].
  by destruct (geminiService.visualize env m).
Qed.

(** X19: the call succeeds exactly when there is a non-empty API key, the
    service answers with a non-empty text, and that text parses; nothing
    that happens while the picture is made can make it fail. *)
Theorem call_succeeds_iff (env : geminiService.Env) (p : string) (i : option string) :
  is_ok (geminiService.generateProjectManifest JSON_parse env p i) = true ↔
    App.opt_truthy (geminiService.API_KEY env) = true
    ∧ ∃ text, geminiService.manifestResponse env = Ok (Some text)
              ∧ text ≠ "" ∧ is_ok (JSON_parse text) = true.
Proof.
  split.
  - unfold geminiService.generateProjectManifest.
    destruct (geminiService.API_KEY env) as [[|c k]|]; try done.
    destruct (geminiService.manifestResponse env) as [[[|c' t]|]|e]; try done.
    cbn [mbind res_bind]. intros H. split; [done|].
    exists (String c' t). split; [done|]. split; [done|].
    by destruct (JSON_parse (String c' t)).
  - intros (Hk & text & Hr & Ht & Hp).
    destruct (JSON_parse text) as [m|e] eqn:Hm; [|done].
    by rewrite (generate_eq env p i text m).
Qed.




End GenerationFacts.


Lemma call_succeeds_iff_witness :
  is_ok (geminiService.generateProjectManifest (λ _, Ok JNull)
           {| geminiService.API_KEY := Some "k";
              geminiService.manifestResponse := Ok (Some "null");
              geminiService.imageResponse := Throw (Error "quota") |}
           "a yoga app" None) = true.
Proof.
  apply (proj2 (call_succeeds_iff (λ _, Ok JNull)
           {| geminiService.API_KEY := Some "k";
              geminiService.manifestResponse := Ok (Some "null");
              geminiService.imageResponse := Throw (Error "quota") |}
           "a yoga app" None)).
  split; [reflexivity|]. exists "null". repeat split. discriminate.
Defined.

(** The picture of the first image part lands in [designSystem.uiImage]. *)
Example image_attached_example :
  geminiService.generateProjectManifest
    (λ _, Ok (obj [("project", obj [("name", JStr "Acme")]);
                   ("designSystem",
                    obj [("colors", obj [("light", obj [("primary", JStr "#000")])])])]))
    {| geminiService.API_KEY := Some "k";
       geminiService.manifestResponse := Ok (Some "{...}");
       geminiService.imageResponse :=
         Ok (Some [{| geminiService.inlineData := None |};
                   {| geminiService.inlineData := Some ("image/png", "AAAA") |};
                   {| geminiService.inlineData := Some ("image/jpeg", "BBBB") |}]) |}
    "a yoga app" None
  = Ok (obj [("project", obj [("name", JStr "Acme")]);
             ("designSystem",
              obj [("colors", obj [("light", obj [("primary", JStr "#000")])]);
                   ("uiImage", JStr "data:image/png;base64,AAAA")])]).
Proof. vm_compute. reflexivity. Qed.

(** X21: a picture stored under [designSystem.uiImage] reaches the
    styleguide: the blueprint hands it over and resolving the theme keeps
    it, in either mode, so the concept section is shown with that picture. *)
Theorem picture_is_shown (mm d : gmap string value) (uri : string) (mode : Mode) :
  uri ≠ "" →
  ∃ ds sc,
    ProjectBlueprint.styleguideProps
      (JObj (<["designSystem" := JObj (<["uiImage" := JStr uri]> d)]> mm)) = Ok ds
    ∧ resolve ds mode = Ok sc
    ∧ prop (safe sc) "uiImage" = JStr uri
    ∧ truthy (prop (safe sc) "uiImage") = true.
Proof.
  intros Hu. rewrite styleguideProps_eq by done.
  assert (Hds : prop (JObj (<["designSystem" := JObj (<["uiImage" := JStr uri]> d)]> mm))
                  "designSystem" = JObj (<["uiImage" := JStr uri]> d)).
  { unfold prop; cbn [ownProps]. by rewrite lookup_insert_eq. }
  rewrite Hds, (or_else_l (JObj _)) by done. cbn [ownProps].
  generalize (prop (prop (JObj (<["designSystem" :=
                 JObj (<["uiImage" := JStr uri]> d)]> mm)) "project"
                    ||| ProjectBlueprint.defaultProject) "name").
  intros name. do 2 eexists. split; [reflexivity|]. split; [apply resolve_ok|].
  cbn [safe].
  assert (H : prop (safeDs (JObj (<["projectName" := name]>
                                    (<["uiImage" := JStr uri]> d)))) "uiImage"
              = JStr uri).
  { rewrite safeDs_other.
    - rewrite optProp_prop. unfold prop; cbn [ownProps].
      rewrite lookup_insert_ne by done. by rewrite lookup_insert_eq.
    - rewrite !not_elem_of_cons. repeat split; try done. apply not_elem_of_nil. }
  rewrite H. split; [done|]. cbn. by destruct (String.eqb_spec uri "").
Qed.

Lemma picture_is_shown_witness :
  ∃ ds sc,
    ProjectBlueprint.styleguideProps
      (JObj (<["designSystem" :=
                JObj (<["uiImage" := JStr "data:image/png;base64,AAAA"]> ∅)]> ∅)) = Ok ds
    ∧ resolve ds dark = Ok sc
    ∧ prop (safe sc) "uiImage" = JStr "data:image/png;base64,AAAA".
Proof.
  destruct (picture_is_shown ∅ ∅ "data:image/png;base64,AAAA" dark ltac:(discriminate))
    as (ds & sc & H1 & H2 & H3 & _).
  exists ds, sc. split; [exact H1|]. split; [exact H2 | exact H3].
Defined.
